(** * Crimson City bot: player session and world engine

    A shallow embedding of [main.py] (the Telegram role-play bot) and the
    properties of its player store, lifecycle handlers, world queries and
    admin commands.

    Conventions of the embedding.
    - Python [int] is [Z]; [str] is [string], the text in its UTF-8
      encoding: the handlers compare, split and concatenate it, which is
      the same on bytes and on characters; [int] and [str.format], which
      look at characters, decode it.
    - [players.json] is the only persistent state.  [json.dump] followed by
      [json.load] is the identity on the values the bot stores (strings,
      integers, booleans, [None], lists and dicts with string keys), so the
      file is modelled by the collection it holds.
    - A handler is a computation over the [World] (file, conversation
      cursors, messages sent) that either finishes or raises; what it wrote
      before raising stays written.
    - Calls to the chat transport ([reply_text], [send_message], ...) are
      recorded in the outbox and are taken to succeed.
    - An attribute that an object of the chat library does not have raises
      [AttributeError] when it is read. *)

From Stdlib Require Import ZArith Ascii String List Lia DecimalString DecimalZ DecimalPos.
From stdpp Require Import base option gmap strings list fin_maps.

Local Open Scope Z_scope.

(** ** Python string primitives *)

Module Py.

(** [s.startswith(p)] *)
Fixpoint startswith (s p : string) {struct p} : bool :=
  match p with
  | EmptyString => true
  | String a p' =>
      match s with
      | EmptyString => false
      | String b s' => (Ascii.eqb a b && startswith s' p')%bool
      end
  end.

(** [s.split(sep)] for a one-character separator: never returns the empty
    list, [''.split('_') = ['']]. *)
Fixpoint split (sep : ascii) (s : string) : list string :=
  match s with
  | EmptyString => [EmptyString]
  | String c r =>
      if Ascii.eqb c sep then EmptyString :: split sep r
      else match split sep r with
           | h :: t => String c h :: t
           | [] => [String c EmptyString]
           end
  end.

(** [l[-1]] on a list; [None] stands for [IndexError]. *)
Definition last_item (l : list string) : option string := last l.

(** [s.replace(old, new)] for a non-empty [old] (the source only replaces
    the constants ['move_to_'] and ['talk_']): occurrences are found left
    to right and do not overlap.  [skip] counts the characters of the
    occurrence being replaced that are still to be dropped. *)
Fixpoint replace_go (old new : string) (skip : nat) (s : string) : string :=
  match s with
  | EmptyString => EmptyString
  | String c r =>
      match skip with
      | S k => replace_go old new k r
      | O =>
          if startswith s old
          then new +:+ replace_go old new (Nat.pred (String.length old)) r
          else String c (replace_go old new O r)
      end
  end.

Definition replace (s old new : string) : string := replace_go old new O s.

(** [sep.join(l)] *)
Definition join (sep : string) (l : list string) : string := String.concat sep l.

(** [s.lower()] on ASCII letters (bytes above 127 are left alone). *)
Definition lower_char (c : ascii) : ascii :=
  let n := nat_of_ascii c in
  if (Nat.leb 65 n && Nat.leb n 90)%bool then ascii_of_nat (n + 32) else c.

Fixpoint lower (s : string) : string :=
  match s with
  | EmptyString => EmptyString
  | String c r => String (lower_char c) (lower r)
  end.

(** [s.upper()] on ASCII letters. *)
Definition upper_char (c : ascii) : ascii :=
  let n := nat_of_ascii c in
  if (Nat.leb 97 n && Nat.leb n 122)%bool then ascii_of_nat (n - 32) else c.

Fixpoint upper (s : string) : string :=
  match s with
  | EmptyString => EmptyString
  | String c r => String (upper_char c) (upper r)
  end.

(** [str(n)] for an integer. *)
Definition str (z : Z) : string := NilZero.string_of_int (Z.to_int z).

(** *** [int(s)]

    CPython reads the text in two steps.  First every character outside
    ASCII is replaced: white space by a blank, a decimal digit of any script
    by its ASCII digit; any other character makes the text invalid.  Then
    the ASCII text is read: blanks on both sides are skipped, one sign is
    allowed, and single underscores may stand between digits. *)

Definition continuation_byte (c : ascii) : option N :=
  let n := N_of_ascii c in
  if ((128 <=? n) && (n <? 192))%N then Some (n - 128)%N else None.

(** The characters of a text as code points, from its UTF-8 bytes; [None]
    for bytes that are not UTF-8, which a [str] never holds. *)
Fixpoint code_points (s : string) : option (list N) :=
  match s with
  | EmptyString => Some []
  | String b0 r0 =>
      let n0 := N_of_ascii b0 in
      if (n0 <? 128)%N then option_map (cons n0) (code_points r0)
      else if (n0 <? 192)%N then None
      else
        match r0 with
        | EmptyString => None
        | String b1 r1 =>
            match continuation_byte b1 with
            | None => None
            | Some c1 =>
                if (n0 <? 224)%N
                then option_map (cons ((n0 - 192) * 64 + c1)%N) (code_points r1)
                else
                  match r1 with
                  | EmptyString => None
                  | String b2 r2 =>
                      match continuation_byte b2 with
                      | None => None
                      | Some c2 =>
                          if (n0 <? 240)%N
                          then option_map (cons (((n0 - 224) * 64 + c1) * 64 + c2)%N)
                                 (code_points r2)
                          else
                            match r2 with
                            | EmptyString => None
                            | String b3 r3 =>
                                match continuation_byte b3 with
                                | None => None
                                | Some c3 =>
                                    if (n0 <? 248)%N
                                    then option_map
                                           (cons ((((n0 - 240) * 64 + c1) * 64 + c2) * 64
                                                  + c3)%N)
                                           (code_points r3)
                                    else None
                                end
                            end
                      end
                  end
            end
        end
  end.

(** The digits zero of the decimal digits of Unicode 14.0 (the table of
    CPython 3.11); each is followed by the digits one to nine of its
    script. *)
Definition decimal_zeros : list N :=
  [48; 1632; 1776; 1984; 2406; 2534; 2662; 2790; 2918; 3046; 3174; 3302; 3430; 3558;
   3664; 3792; 3872; 4160; 4240; 6112; 6160; 6470; 6608; 6784; 6800; 6992; 7088; 7232;
   7248; 42528; 43216; 43264; 43472; 43504; 43600; 44016; 65296; 66720; 68912; 69734;
   69872; 69942; 70096; 70384; 70736; 70864; 71248; 71360; 71472; 71904; 72016; 72784;
   73040; 73120; 92768; 92864; 93008; 120782; 120792; 120802; 120812; 120822; 123200;
   123632; 125264; 130032]%N.

(** [Py_UNICODE_TODECIMAL]: the value of a decimal digit. *)
Definition decimal (cp : N) : option N :=
  match find (fun zero => (zero <=? cp) && (cp <? zero + 10))%N decimal_zeros with
  | Some zero => Some (cp - zero)%N
  | None => None
  end.

(** [Py_UNICODE_ISSPACE]: the characters for which [str.isspace] holds. *)
Definition unicode_space (cp : N) : bool :=
  existsb (N.eqb cp)
    [9; 10; 11; 12; 13; 28; 29; 30; 31; 32; 133; 160; 5760; 8192; 8193; 8194; 8195; 8196;
     8197; 8198; 8199; 8200; 8201; 8202; 8232; 8233; 8239; 8287; 12288]%N.

(** The first step on one character: a character below 127 stays as it is
    (also the separators [\x1c]-[\x1f], which the second step does not
    skip). *)
Definition int_char (cp : N) : option ascii :=
  if (cp <? 127)%N then Some (ascii_of_N cp)
  else if unicode_space cp then Some " "%char
  else option_map (fun d => ascii_of_N (48 + d)) (decimal cp).

Fixpoint int_chars (cps : list N) : option string :=
  match cps with
  | [] => Some EmptyString
  | cp :: r =>
      match int_char cp, int_chars r with
      | Some a, Some t => Some (String a t)
      | _, _ => None
      end
  end.

(** [Py_ISSPACE]: the blanks that the second step skips, [\t \n \v \f \r]
    and the space. *)
Definition blank (c : ascii) : bool :=
  let n := nat_of_ascii c in
  ((Nat.leb 9 n && Nat.leb n 13) || Nat.eqb n 32)%bool.

Fixpoint skip_blanks (s : string) : string :=
  match s with
  | EmptyString => EmptyString
  | String c r => if blank c then skip_blanks r else s
  end.

Fixpoint drop_blanks (s : string) : string :=
  match s with
  | EmptyString => EmptyString
  | String c r =>
      match drop_blanks r with
      | EmptyString => if blank c then EmptyString else String c EmptyString
      | r' => String c r'
      end
  end.

(** Digit groups of an integer literal: a single underscore is allowed
    between two digits and is dropped.  [after_digit] tells whether the
    previous character was part of a group. *)
Fixpoint digit_groups (after_digit : bool) (s : string) : option string :=
  match s with
  | EmptyString => if after_digit then Some EmptyString else None
  | String c r =>
      if Ascii.eqb c "_"
      then (if after_digit then digit_groups false r else None)
      else match digit_groups true r with
           | Some r' => Some (String c r')
           | None => None
           end
  end.

(** The second step, on the ASCII text. *)
Definition int_ascii (s : string) : option Z :=
  match drop_blanks (skip_blanks s) with
  | EmptyString => None
  | String c r as body =>
      let '(negative, digits) :=
        if Ascii.eqb c "-" then (true, r)
        else if Ascii.eqb c "+" then (false, r)
        else (false, body) in
      match digit_groups false digits with
      | None => None
      | Some ds =>
          match NilEmpty.uint_of_string ds with
          | None => None
          | Some u => Some (if negative then Z.opp (Z.of_uint u) else Z.of_uint u)
          end
      end
  end.

(** [int(s)] in base ten; [None] stands for [ValueError].  (The limit of
    4300 digits is left out: a chat message holds at most 4096
    characters.) *)
Definition int (s : string) : option Z :=
  match code_points s with
  | None => None
  | Some cps =>
      match int_chars cps with
      | None => None
      | Some text => int_ascii text
      end
  end.

End Py.

(** ** Exceptions and results *)

(** [Unmodelled] is not an exception of Python: it marks a computation
    that leaves what this embedding describes (see [render_field]).  No
    statement of this development is about such a computation. *)
Inductive Exn :=
| KeyError (key : string)
| ValueError
| IndexError
| TypeError
| AttributeError
| Unmodelled.

(** A pure computation that may raise. *)
Definition Res (A : Type) : Type := Exn + A.

Definition res_bind {A B} (r : Res A) (k : A -> Res B) : Res B :=
  match r with
  | inl e => inl e
  | inr a => k a
  end.

(** ** Static tables as Python dicts *)

Inductive value :=
| Str (s : string)
| Lst (l : list string)
| Bool (b : bool).

Definition dict := list (string * value).

(** [k in d] and [d.get(k)] on an insertion-ordered dict literal. *)
Fixpoint dict_get {V} (d : list (string * V)) (k : string) : option V :=
  match d with
  | [] => None
  | (k', v) :: d' => if String.eqb k' k then Some v else dict_get d' k
  end.

Definition dict_keys {V} (d : list (string * V)) : list string := map fst d.

(** [d[k]] *)
Definition getitem {V} (d : list (string * V)) (k : string) : Res V :=
  match dict_get d k with
  | Some v => inr v
  | None => inl (KeyError k)
  end.

(** [d[k]] where the entry is a text (all [name_*], [description_*] and
    [dialogue_*] entries of the tables are). *)
Definition getstr (d : dict) (k : string) : Res string :=
  match getitem d k with
  | inl e => inl e
  | inr (Str s) => inr s
  | inr _ => inl TypeError
  end.

(** [d[k]] where the entry is a list of ids. *)
Definition getlist (d : dict) (k : string) : Res (list string) :=
  match getitem d k with
  | inl e => inl e
  | inr (Lst l) => inr l
  | inr _ => inl TypeError
  end.

(** Truth value of [d.get(k, False)]. *)
Definition get_flag (d : dict) (k : string) : bool :=
  match dict_get d k with
  | Some (Bool b) => b
  | Some (Str s) => negb (String.eqb s "")
  | Some (Lst l) => negb (Nat.eqb (length l) 0)
  | None => false
  end.

Definition NL : string := String (ascii_of_nat 10) EmptyString.

Definition GAME_MAP : list (string * dict) :=
  [("downtown",
      [("name_en", Str "Downtown");
       ("name_fa", Str "مرکز شهر");
       ("description_en", Str "Towering skyscrapers and luxury apartments dominate the skyline. The air hums with power and ambition.");
       ("description_fa", Str "آسمان‌خراش‌های سر به فلک کشیده و آپارتمان‌های لوکس، خط افق را تسخیر کرده‌اند. هوا از قدرت و جاه‌طلبی لبریز است.");
       ("connections", Lst ["neon_district"; "industrial_zone"; "the_plaza"]);
       ("locations", Lst ["the_onyx_bar"; "vip_lounge"])]);
    ("neon_district",
      [("name_en", Str "Neon District");
       ("name_fa", Str "منطقه نئون");
       ("description_en", Str "A vibrant, chaotic district buzzing with nightlife. Music spills from every doorway.");
       ("description_fa", Str "منطقه‌ای پرجنب‌وجوش و پرهرج‌ومرج که با زندگی شبانه می‌تپد. موسیقی از هر دری به بیرون می‌ریزد.");
       ("connections", Lst ["downtown"]);
       ("locations", Lst [])]);
    ("industrial_zone",
      [("name_en", Str "Industrial Zone");
       ("name_fa", Str "منطقه صنعتی");
       ("description_en", Str "A gritty, working-class area of factories and warehouses. The smell of metal and sweat hangs in the air.");
       ("description_fa", Str "منطقه‌ای زمخت و کارگری پر از کارخانه و انبار. بوی فلز و عرق در هوا پیچیده است.");
       ("connections", Lst ["downtown"]);
       ("locations", Lst [])]);
    ("the_plaza",
      [("name_en", Str "The Plaza");
       ("name_fa", Str "پلازا");
       ("description_en", Str "An open-air plaza with a grand fountain at its center. A place for the public to gather.");
       ("description_fa", Str "یک میدانگاه با یک فواره بزرگ در مرکز آن. مکانی برای تجمع مردم.");
       ("connections", Lst ["downtown"]);
       ("locations", Lst [])])].

Definition LOCATIONS : list (string * dict) :=
  [("the_onyx_bar",
      [("name_en", Str "The Onyx Bar");
       ("name_fa", Str "بار اونیکس");
       ("description_en", Str "A classy, dimly lit bar where the city's elite come to make deals in the shadows.");
       ("description_fa", Str "یک بار شیک و کم‌نور که نخبگان شهر برای انجام معاملات در سایه‌ها به آنجا می‌آیند.");
       ("npcs", Lst ["slick_the_bartender"])]);
    ("vip_lounge",
      [("name_en", Str "The VIP Lounge");
       ("name_fa", Str "سالن VIP");
       ("description_en", Str "An exclusive, opulent lounge accessible only to the city's most influential.");
       ("description_fa", Str "یک سالن مجلل و انحصاری که فقط برای افراد با نفوذ شهر قابل دسترسی است.");
       ("npcs", Lst []);
       ("requires_vip", Bool true)])].

Definition NPCS : list (string * dict) :=
  [("slick_the_bartender",
      [("name_en", Str "Slick, the Bartender");
       ("name_fa", Str "اسلیک، متصدی بار");
       ("dialogue_en", Str "'What can I get for you? See a lot of faces in here. Some win, some lose. The city always collects.'");
       ("dialogue_fa", Str "'چی میل داری؟ چهره‌های زیادی اینجا می‌بینم. بعضی‌ها می‌برن، بعضی‌ها می‌بازن. شهر همیشه حقشو می‌گیره.'")])].

Definition en_locale : list (string * string) :=
  [("voice_prompt",
    "To ensure the quality of our community, you must be approved by an admin. Please send a voice message stating your character name and age.");
   ("approval_pending",
    "Your request has been sent for approval. Please wait for an admin to review it. You will be notified.");
   ("approval_success",
    "✅ You have been approved! Welcome to Crimson City. Let's create your character.");
   ("voice_already_submitted",
    "You have already submitted a voice message for approval.");
   ("welcome_back",
    "Welcome back, {name}. The city awaits.");
   ("language_set",
    "Language set to English.");
   ("character_creation_name",
    "The city doesn't know you yet. What name will you be known by?");
   ("character_creation_profession",
    "And what is your trade? How did you make your way in this world?");
   ("prof_hustler",
    "Street Hustler");
   ("prof_intellectual",
    "Intellectual");
   ("prof_charmer",
    "Charmer");
   ("character_creation_complete",
    "Very well, {name}. Your story in Crimson City begins now.");
   ("main_menu_prompt",
    "What's your next move?");
   ("menu_look",
    "🔎 Look Around");
   ("menu_move",
    "🗺️ Move");
   ("menu_profile",
    "👤 Profile");
   ("menu_language",
    "🌐 Language");
   ("menu_inventory",
    "🎒 Inventory");
   ("profile_view",
    ("👤 *Profile*" +:+ NL +:+ NL +:+ "*Name:* {name}" +:+ NL +:+ "*Profession:* {profession}" +:+ NL +:+ "*VIP Status:* {vip_status}" +:+ NL +:+ NL +:+ "*Currency:* {currency} CC" +:+ NL +:+ NL +:+ "*Stats:*" +:+ NL +:+ "- Charm: {charm}" +:+ NL +:+ "- Intellect: {intellect}" +:+ NL +:+ "- Street Smarts: {street_smarts}"));
   ("move_prompt",
    "Where do you want to go?");
   ("move_success",
    "You arrive at {location}.");
   ("back_button",
    "Back");
   ("places_in_district",
    "You see a few places of interest:");
   ("npcs_in_area",
    "People here:");
   ("talk_to",
    "Talk to");
   ("god_presence",
    "You feel an overwhelming presence. The God of this City is here.");
   ("inventory_empty",
    "Your pockets are empty.");
   ("vip_status_yes",
    "Yes");
   ("vip_status_no",
    "No");
   ("broadcast_header",
    "A message echoes through the city:");
   ("whisper_header",
    "A voice whispers directly into your mind:")].

Definition fa_locale : list (string * string) :=
  [("voice_prompt",
    "برای اطمینان از کیفیت جامعه ما، باید توسط ادمین تأیید شوید. لطفاً یک پیام صوتی ارسال کنید و نام شخصیت و سن خود را بیان کنید.");
   ("approval_pending",
    "درخواست شما برای تأیید ارسال شد. لطفاً منتظر بمانید تا ادمین آن را بررسی کند. به شما اطلاع داده خواهد شد.");
   ("approval_success",
    "✅ شما تأیید شدید! به شهر کریمسون خوش آمدید. بیایید شخصیت خود را بسازیم.");
   ("voice_already_submitted",
    "شما قبلاً یک پیام صوتی برای تأیید ارسال کرده‌اید.");
   ("welcome_back",
    "خوش برگشتی، {name}. شهر منتظر توست.");
   ("language_set",
    "زبان به فارسی تغییر کرد.");
   ("character_creation_name",
    "این شهر هنوز تو را نمی‌شناسد. به چه نامی شناخته خواهی شد؟");
   ("character_creation_profession",
    "و حرفه‌ات چیست؟ چگونه در این دنیا راه خود را پیدا کرده‌ای؟");
   ("prof_hustler",
    "کلاهبردار خیابانی");
   ("prof_intellectual",
    "روشنفکر");
   ("prof_charmer",
    "جذاب و دلربا");
   ("character_creation_complete",
    "بسیار خب، {name}. داستان تو در شهر کریمسون اکنون آغاز می‌شود.");
   ("main_menu_prompt",
    "حرکت بعدی‌ات چیست؟");
   ("menu_look",
    "🔎 اطراف را نگاه کن");
   ("menu_move",
    "🗺️ حرکت کن");
   ("menu_profile",
    "👤 پروفایل");
   ("menu_language",
    "🌐 زبان");
   ("menu_inventory",
    "🎒 کوله‌پشتی");
   ("profile_view",
    ("👤 *پروفایل*" +:+ NL +:+ NL +:+ "*نام:* {name}" +:+ NL +:+ "*حرفه:* {profession}" +:+ NL +:+ "*وضعیت VIP:* {vip_status}" +:+ NL +:+ NL +:+ "*پول:* {currency} CC" +:+ NL +:+ NL +:+ "*آمار:*" +:+ NL +:+ "- جذابیت: {charm}" +:+ NL +:+ "- هوش: {intellect}" +:+ NL +:+ "- زرنگی خیابانی: {street_smarts}"));
   ("move_prompt",
    "کجا می‌خواهی بروی؟");
   ("move_success",
    "به {location} رسیدی.");
   ("back_button",
    "بازگشت");
   ("places_in_district",
    "چند مکان جالب توجه می‌بینی:");
   ("npcs_in_area",
    "افراد حاضر:");
   ("talk_to",
    "صحبت با");
   ("god_presence",
    "حضوری قدرتمند را حس می‌کنی. خدای این شهر اینجاست.");
   ("inventory_empty",
    "جیب‌هایت خالی است.");
   ("vip_status_yes",
    "بله");
   ("vip_status_no",
    "خیر");
   ("broadcast_header",
    "پیامی در سراسر شهر طنین‌انداز می‌شود:");
   ("whisper_header",
    "صدایی مستقیماً در ذهن تو زمزمه می‌کند:")].

(** ** Localization: [get_text] *)

(** [load_locales] reads back the two files that [main] has just written,
    so at handler time [locales] holds exactly these tables. *)
Definition locales : list (string * list (string * string)) :=
  [("en", en_locale); ("fa", fa_locale)].

(** *** [str.format] with keyword arguments only

    The template is read from left to right, and the first error met is the
    one raised.  [{{] and [}}] are literal braces; a brace that stands alone
    is a [ValueError].  A replacement field is [{name!conversion:spec}]
    with every part optional. *)

(** What [get_integer] makes of the first part of a field name: the
    digits of any script are read as an index. *)
Inductive arg_index :=
| NotInteger
| Index (n : N)
| TooManyDigits.

(** On a 64-bit build. *)
Definition PY_SSIZE_T_MAX : N := 9223372036854775807.

Fixpoint get_integer_go (accumulator : N) (cps : list N) : arg_index :=
  match cps with
  | [] => Index accumulator
  | cp :: r =>
      match Py.decimal cp with
      | None => NotInteger
      | Some digitval =>
          if ((PY_SSIZE_T_MAX - digitval) / 10 <? accumulator)%N then TooManyDigits
          else get_integer_go (accumulator * 10 + digitval)%N r
      end
  end.

Definition get_integer (s : string) : arg_index :=
  match Py.code_points s with
  | Some (cp :: r) => get_integer_go 0 (cp :: r)
  | _ => NotInteger
  end.

(** The field name up to its first [.] or [[], and what follows. *)
Fixpoint field_name_split (field_name : string) : string * string :=
  match field_name with
  | EmptyString => (EmptyString, EmptyString)
  | String c r =>
      if (Ascii.eqb c "." || Ascii.eqb c "[")%bool then (EmptyString, field_name)
      else let (first, rest) := field_name_split r in (String c first, rest)
  end.

(** The text that replaces a field.  An empty or numeric name asks for a
    positional argument, and there is none ([IndexError]); any other name
    is looked up in [kwargs] ([KeyError]).  The value found is shown as it
    is when nothing follows the name, the conversion is absent or [s], and
    the specification is empty.  What [str.format] does otherwise (an
    attribute or an index of the value, its [repr], a padded or cut form)
    is left out: the result is [Unmodelled].  No template of the bot has
    such a field. *)
Definition render_field (kwargs : list (string * string)) (field_name : string)
    (conversion : option ascii) (format_spec : string) : Res string :=
  let (first, rest) := field_name_split field_name in
  match get_integer first with
  | TooManyDigits => inl ValueError
  | Index _ => inl IndexError
  | NotInteger =>
      if String.eqb first "" then inl IndexError
      else
        res_bind (getitem kwargs first) (fun obj =>
        if negb (String.eqb rest "") then inl Unmodelled
        else
          match conversion with
          | None => if String.eqb format_spec "" then inr obj else inl Unmodelled
          | Some c =>
              if Ascii.eqb c "s"
              then (if String.eqb format_spec "" then inr obj else inl Unmodelled)
              else if (Ascii.eqb c "r" || Ascii.eqb c "a")%bool then inl Unmodelled
              else inl ValueError
          end)
  end.

(** Where the reader of the template is: in literal text; after a closing
    brace; in a field name ([bracket]: inside [[...]], where every
    character belongs to the name; [fresh]: right after the opening brace,
    where a second one makes a literal brace); after [!]; after the
    conversion character; in the specification, [depth] braces deep. *)
Inductive format_state :=
| Literal
| Closed
| Name (rev_name : string) (bracket fresh : bool)
| Conversion (field_name : string)
| Converted (field_name : string) (conversion : ascii)
| Spec (field_name : string) (conversion : option ascii) (rev_spec : string) (depth : nat).

Fixpoint format_go (kwargs : list (string * string)) (st : format_state)
    (s : string) : Res string :=
  match s with
  | EmptyString =>
      match st with
      | Literal => inr EmptyString
      | _ => inl ValueError
      end
  | String c r =>
      match st with
      | Literal =>
          if Ascii.eqb c "{" then format_go kwargs (Name EmptyString false true) r
          else if Ascii.eqb c "}" then format_go kwargs Closed r
          else res_bind (format_go kwargs Literal r) (fun t => inr (String c t))
      | Closed =>
          if Ascii.eqb c "}"
          then res_bind (format_go kwargs Literal r) (fun t => inr (String "}" t))
          else inl ValueError
      | Name rev_name bracket fresh =>
          if (fresh && Ascii.eqb c "{")%bool
          then res_bind (format_go kwargs Literal r) (fun t => inr (String "{" t))
          else if bracket
          then format_go kwargs (Name (String c rev_name) (negb (Ascii.eqb c "]")) false) r
          else if Ascii.eqb c "{" then inl ValueError
          else if Ascii.eqb c "["
          then format_go kwargs (Name (String c rev_name) true false) r
          else if Ascii.eqb c "}"
          then res_bind (render_field kwargs (String.rev rev_name) None EmptyString) (fun v =>
               res_bind (format_go kwargs Literal r) (fun t => inr (v +:+ t)))
          else if Ascii.eqb c ":"
          then format_go kwargs (Spec (String.rev rev_name) None EmptyString O) r
          else if Ascii.eqb c "!"
          then format_go kwargs (Conversion (String.rev rev_name)) r
          else format_go kwargs (Name (String c rev_name) false false) r
      | Conversion field_name => format_go kwargs (Converted field_name c) r
      | Converted field_name conversion =>
          if Ascii.eqb c "}"
          then res_bind (render_field kwargs field_name (Some conversion) EmptyString)
                 (fun v =>
                  res_bind (format_go kwargs Literal r) (fun t => inr (v +:+ t)))
          else if Ascii.eqb c ":"
          then format_go kwargs (Spec field_name (Some conversion) EmptyString O) r
          else inl ValueError
      | Spec field_name conversion rev_spec depth =>
          if Ascii.eqb c "{"
          then format_go kwargs (Spec field_name conversion (String c rev_spec) (S depth)) r
          else if Ascii.eqb c "}"
          then match depth with
               | O =>
                   res_bind (render_field kwargs field_name conversion
                               (String.rev rev_spec)) (fun v =>
                   res_bind (format_go kwargs Literal r) (fun t => inr (v +:+ t)))
               | S d =>
                   format_go kwargs (Spec field_name conversion (String c rev_spec) d) r
               end
          else format_go kwargs (Spec field_name conversion (String c rev_spec) depth) r
      end
  end.

Definition format (template : string) (kwargs : list (string * string)) : Res string :=
  format_go kwargs Literal template.

(** [locales.get(lang, {}).get(key, key)], formatted with the keyword
    arguments. *)
Definition get_text (key lang : string) (kwargs : list (string * string)) : Res string :=
  format (default key (dict_get (default [] (dict_get locales lang)) key)) kwargs.

(** ** The player record and the store *)

Record Stats := mkStats {
  charm : Z;
  intellect : Z;
  street_smarts : Z
}.

(** One entry of [players.json]; the fields are the keys of the dict that
    [get_player_state] creates.  [None] is Python's [None]. *)
Record Player := mkPlayer {
  lang : string;
  approved : bool;
  pending_approval : bool;
  voice_file_id : option string;
  character_created : bool;
  name : option string;
  profession : option string;
  location : string;
  inventory : list string;
  stats : Stats;
  currency : Z;
  is_vip : bool
}.

(** Item assignments [state[key] = v]. *)
Definition set_lang (v : string) (p : Player) : Player :=
  mkPlayer v (approved p) (pending_approval p) (voice_file_id p) (character_created p)
    (name p) (profession p) (location p) (inventory p) (stats p) (currency p) (is_vip p).
Definition set_approved (v : bool) (p : Player) : Player :=
  mkPlayer (lang p) v (pending_approval p) (voice_file_id p) (character_created p)
    (name p) (profession p) (location p) (inventory p) (stats p) (currency p) (is_vip p).
Definition set_pending_approval (v : bool) (p : Player) : Player :=
  mkPlayer (lang p) (approved p) v (voice_file_id p) (character_created p)
    (name p) (profession p) (location p) (inventory p) (stats p) (currency p) (is_vip p).
Definition set_voice_file_id (v : option string) (p : Player) : Player :=
  mkPlayer (lang p) (approved p) (pending_approval p) v (character_created p)
    (name p) (profession p) (location p) (inventory p) (stats p) (currency p) (is_vip p).
Definition set_character_created (v : bool) (p : Player) : Player :=
  mkPlayer (lang p) (approved p) (pending_approval p) (voice_file_id p) v
    (name p) (profession p) (location p) (inventory p) (stats p) (currency p) (is_vip p).
Definition set_name (v : option string) (p : Player) : Player :=
  mkPlayer (lang p) (approved p) (pending_approval p) (voice_file_id p) (character_created p)
    v (profession p) (location p) (inventory p) (stats p) (currency p) (is_vip p).
Definition set_profession (v : option string) (p : Player) : Player :=
  mkPlayer (lang p) (approved p) (pending_approval p) (voice_file_id p) (character_created p)
    (name p) v (location p) (inventory p) (stats p) (currency p) (is_vip p).
Definition set_location (v : string) (p : Player) : Player :=
  mkPlayer (lang p) (approved p) (pending_approval p) (voice_file_id p) (character_created p)
    (name p) (profession p) v (inventory p) (stats p) (currency p) (is_vip p).
Definition set_inventory (v : list string) (p : Player) : Player :=
  mkPlayer (lang p) (approved p) (pending_approval p) (voice_file_id p) (character_created p)
    (name p) (profession p) (location p) v (stats p) (currency p) (is_vip p).
Definition set_stats (v : Stats) (p : Player) : Player :=
  mkPlayer (lang p) (approved p) (pending_approval p) (voice_file_id p) (character_created p)
    (name p) (profession p) (location p) (inventory p) v (currency p) (is_vip p).
Definition set_currency (v : Z) (p : Player) : Player :=
  mkPlayer (lang p) (approved p) (pending_approval p) (voice_file_id p) (character_created p)
    (name p) (profession p) (location p) (inventory p) (stats p) v (is_vip p).
Definition set_is_vip (v : bool) (p : Player) : Player :=
  mkPlayer (lang p) (approved p) (pending_approval p) (voice_file_id p) (character_created p)
    (name p) (profession p) (location p) (inventory p) (stats p) (currency p) v.

Definition set_charm (v : Z) (s : Stats) : Stats := mkStats v (intellect s) (street_smarts s).
Definition set_intellect (v : Z) (s : Stats) : Stats := mkStats (charm s) v (street_smarts s).
Definition set_street_smarts (v : Z) (s : Stats) : Stats := mkStats (charm s) (intellect s) v.

(** The dict literal of [get_player_state]. *)
Definition default_player : Player :=
  {| lang := "en";
     approved := false;
     pending_approval := false;
     voice_file_id := None;
     character_created := false;
     name := None;
     profession := None;
     location := "downtown";
     inventory := [];
     stats := {| charm := 1; intellect := 1; street_smarts := 1 |};
     currency := 100;
     is_vip := false |}.

(** A user id reaches the store either as the integer of the chat platform
    or as the text of a command argument; [str(user_id)] is the key. *)
Inductive pyid :=
| IntId (z : Z)
| StrId (s : string).

Definition py_key (user_id : pyid) : string :=
  match user_id with
  | IntId z => Py.str z
  | StrId s => s
  end.

(** ** Outbound messages *)

Definition Button : Type := string * string.   (* label, callback_data *)
Definition Keyboard : Type := list (list Button).

Inductive Out :=
| answer_callback
| reply_text (text : string) (parse_mode : option string) (reply_markup : option Keyboard)
| reply_json (data : Player)
| edit_message_text (text : string) (parse_mode : option string) (reply_markup : option Keyboard)
| edit_message_reply_markup (reply_markup : option Keyboard)
| send_message (chat_id : Z) (text : string) (reply_markup : option Keyboard)
| send_voice (chat_id : Z) (voice : option string) (reply_markup : option Keyboard).

(** ** The world and the handler monad *)

Record World := mkWorld {
  db_file : option (gmap string Player);   (* players.json; None: missing or unreadable *)
  user_data : gmap Z (option string);      (* context.user_data[...]['next_step'] per user *)
  outbox : list Out
}.

Definition initial_world : World := mkWorld None ∅ [].

Definition M (A : Type) : Type := World -> World * Res A.

Definition ret {A} (a : A) : M A := fun w => (w, inr a).

Definition bind {A B} (m : M A) (k : A -> M B) : M B :=
  fun w =>
    match m w with
    | (w', inl e) => (w', inl e)
    | (w', inr a) => k a w'
    end.

Definition raise {A} (e : Exn) : M A := fun w => (w, inl e).

Definition lift {A} (r : Res A) : M A := fun w => (w, r).

(** [try: body  except ...: handler]; the handler re-raises what its
    [except] clauses do not name. *)
Definition try_except {A} (body : M A) (handler : Exn -> M A) : M A :=
  fun w =>
    match body w with
    | (w', inl e) => handler e w'
    | (w', inr a) => (w', inr a)
    end.

Notation "'let*' x ':=' e 'in' k" := (bind e (fun x => k))
  (at level 10, x name, e at level 100, k at level 200).
Notation "e1 ;;; e2" := (bind e1 (fun _ => e2))
  (at level 100, e2 at level 200, right associativity).

Definition send (o : Out) : M unit :=
  fun w => (mkWorld (db_file w) (user_data w) (outbox w ++ [o]), inr tt).

(** [context.user_data.get('next_step')] of the user the update is from. *)
Definition get_next_step (effective_user : Z) : M (option string) :=
  fun w => (w, inr (default None (user_data w !! effective_user))).

(** [context.user_data['next_step'] = v] *)
Definition set_next_step (effective_user : Z) (v : option string) : M unit :=
  fun w => (mkWorld (db_file w) (<[effective_user := v]> (user_data w)) (outbox w), inr tt).

(** ** The bot *)

Section Bot.

(** [ADMIN_USER_ID] comes from the environment at start-up. *)
Variable ADMIN_USER_ID : Z.

(** *** Database management *)

(** A missing or undecodable file reads as the empty collection. *)
Definition load_player_data : M (gmap string Player) :=
  fun w => (w, inr (default ∅ (db_file w))).

Definition save_player_data (data : gmap string Player) : M unit :=
  fun w => (mkWorld (Some data) (user_data w) (outbox w), inr tt).

(** *** Helper functions *)

(** The default is put in the collection just loaded, which is local to
    the call: nothing is saved here. *)
Definition get_player_state (user_id : pyid) : M Player :=
  let* players := load_player_data in
  let user_id_str := py_key user_id in
  let players :=
    match players !! user_id_str with
    | None => <[user_id_str := default_player]> players
    | Some _ => players
    end in
  match players !! user_id_str with
  | Some state => ret state
  | None => raise (KeyError user_id_str)
  end.

Definition update_player_state (user_id : pyid) (state : Player) : M unit :=
  let* players := load_player_data in
  let players := <[py_key user_id := state]> players in
  save_player_data players.

Definition is_admin (user_id : Z) : bool := Z.eqb user_id ADMIN_USER_ID.

(** [str(v)] of a field that is a text or [None], as an f-string or
    [format] shows it. *)
Definition show (v : option string) : string := default "None" v.

(** *** Command handlers *)

(** [from_callback] tells whether the update carries a callback query:
    the menu then replaces the message the button was on. *)
Definition show_main_menu (from_callback : bool) (user_id : Z) : M unit :=
  let* player_state := get_player_state (IntId user_id) in
  let lang := lang player_state in
  let* menu_look := lift (get_text "menu_look" lang []) in
  let* menu_move := lift (get_text "menu_move" lang []) in
  let* menu_profile := lift (get_text "menu_profile" lang []) in
  let* menu_inventory := lift (get_text "menu_inventory" lang []) in
  let* menu_language := lift (get_text "menu_language" lang []) in
  let keyboard :=
    [[(menu_look, "main_look")];
     [(menu_move, "main_move")];
     [(menu_profile, "main_profile")];
     [(menu_inventory, "main_inventory")];
     [(menu_language, "main_language")]] in
  let* message_text := lift (get_text "main_menu_prompt" lang []) in
  if from_callback
  then send (edit_message_text message_text None (Some keyboard))
  else send (send_message user_id message_text (Some keyboard)).

(** The cursor is written to the data of the user the update is from,
    the prompt goes to [user_id]. *)
Definition character_creation_prompt (effective_user user_id : Z) : M unit :=
  let* player_state := get_player_state (IntId user_id) in
  let lang := lang player_state in
  set_next_step effective_user (Some "create_character_name") ;;;
  let* text := lift (get_text "character_creation_name" lang []) in
  send (send_message user_id text None).

Definition language_keyboard : Keyboard :=
  [[("English", "set_lang_en")]; [("فارسی (Persian)", "set_lang_fa")]].

Definition start_command (user_id : Z) : M unit :=
  let* player_state := get_player_state (IntId user_id) in
  if approved player_state then
    if negb (character_created player_state) then
      character_creation_prompt user_id user_id
    else
      let lang := lang player_state in
      let* text := lift (get_text "welcome_back" lang [("name", show (name player_state))]) in
      send (reply_text text None None) ;;;
      show_main_menu false user_id
  else if pending_approval player_state then
    let lang := lang player_state in
    let* text := lift (get_text "approval_pending" lang []) in
    send (reply_text text None None)
  else
    send (reply_text
            ("Welcome to Crimson City. Please choose your language." +:+ NL +:+ NL +:+
             "به شهر کریمسون خوش آمدید. لطفاً زبان خود را انتخاب کنید.")
            None (Some language_keyboard)).

(** *** Message and voice handlers *)

Definition message_handler (user_id : Z) (text : string) : M unit :=
  let* player_state := get_player_state (IntId user_id) in
  let* next_step := get_next_step user_id in
  if negb (approved player_state) then ret tt
  else if bool_decide (next_step = Some "create_character_name") then
    let lang := lang player_state in
    let player_state := set_name (Some text) player_state in
    update_player_state (IntId user_id) player_state ;;;
    let* prof_hustler := lift (get_text "prof_hustler" lang []) in
    let* prof_intellectual := lift (get_text "prof_intellectual" lang []) in
    let* prof_charmer := lift (get_text "prof_charmer" lang []) in
    let keyboard :=
      [[(prof_hustler, "set_prof_hustler")];
       [(prof_intellectual, "set_prof_intellectual")];
       [(prof_charmer, "set_prof_charmer")]] in
    let* prompt := lift (get_text "character_creation_profession" lang []) in
    send (reply_text prompt None (Some keyboard)) ;;;
    set_next_step user_id None
  else ret tt.

Definition voice_handler (user_id : Z) (full_name file_id : string) : M unit :=
  let* player_state := get_player_state (IntId user_id) in
  let lang := lang player_state in
  if (approved player_state || pending_approval player_state)%bool then
    let* text := lift (get_text "voice_already_submitted" lang []) in
    send (reply_text text None None)
  else
    let player_state := set_pending_approval true player_state in
    let player_state := set_voice_file_id (Some file_id) player_state in
    update_player_state (IntId user_id) player_state ;;;
    let* text := lift (get_text "approval_pending" lang []) in
    send (reply_text text None None) ;;;
    let keyboard :=
      [[("✅ Approve", "approve_" +:+ Py.str user_id);
        ("❌ Reject", "reject_" +:+ Py.str user_id)]] in
    send (send_message ADMIN_USER_ID
            ("New user for approval: " +:+ full_name +:+ " (ID: " +:+ Py.str user_id +:+ ")")
            None) ;;;
    send (send_voice ADMIN_USER_ID (voice_file_id player_state) (Some keyboard)).

(** *** Callback query handler (buttons) *)

(** [a, b = l] *)
Definition unpack2 (l : list string) : Res (string * string) :=
  match l with
  | [a; b] => inr (a, b)
  | _ => inl ValueError
  end.

(** [a, b, c = l] *)
Definition unpack3 (l : list string) : Res (string * string * string) :=
  match l with
  | [a; b; c] => inr (a, b, c)
  | _ => inl ValueError
  end.

Definition to_int (s : string) : Res Z :=
  match Py.int s with
  | Some z => inr z
  | None => inl ValueError
  end.

(** [l[-1]] *)
Definition last_of (l : list string) : Res string :=
  match Py.last_item l with
  | Some s => inr s
  | None => inl IndexError
  end.

(** [del players[k]] *)
Definition delitem (players : gmap string Player) (k : string) : Res (gmap string Player) :=
  match players !! k with
  | Some _ => inr (delete k players)
  | None => inl (KeyError k)
  end.

(** Admin approval: [approve_<id>] and [reject_<id>]. *)
Definition button_approval (user_id : Z) (data : string) : M unit :=
  if negb (is_admin user_id) then ret tt
  else
    let* parts := lift (unpack2 (Py.split "_" data)) in
    let action := fst parts in
    let target_user_id_str := snd parts in
    let* target_user_id := lift (to_int target_user_id_str) in
    let* target_player_state := get_player_state (IntId target_user_id) in
    if String.eqb action "approve" then
      let target_player_state := set_approved true target_player_state in
      let target_player_state := set_pending_approval false target_player_state in
      update_player_state (IntId target_user_id) target_player_state ;;;
      send (edit_message_reply_markup None) ;;;
      send (send_message ADMIN_USER_ID
              ("User " +:+ Py.str target_user_id +:+ " approved.") None) ;;;
      let target_lang := lang target_player_state in
      let* text := lift (get_text "approval_success" target_lang []) in
      send (send_message target_user_id text None) ;;;
      character_creation_prompt user_id target_user_id
    else
      let* players := load_player_data in
      let* players := lift (delitem players target_user_id_str) in
      save_player_data players ;;;
      send (edit_message_reply_markup None) ;;;
      send (send_message ADMIN_USER_ID
              ("User " +:+ Py.str target_user_id +:+ " rejected and data deleted.") None).

(** Language selection: [set_lang_<code>]. *)
Definition button_language (user_id : Z) (data : string) (player_state : Player) : M unit :=
  let* lang_code := lift (last_of (Py.split "_" data)) in
  let player_state := set_lang lang_code player_state in
  update_player_state (IntId user_id) player_state ;;;
  let* text := lift (get_text "voice_prompt" lang_code []) in
  send (edit_message_text text None None) ;;;
  set_next_step user_id (Some "submit_voice").

(** Character profession: [set_prof_<profession>]. *)
Definition button_profession (user_id : Z) (data : string) (player_state : Player)
    (lang : string) : M unit :=
  let* profession := lift (last_of (Py.split "_" data)) in
  let player_state := set_profession (Some profession) player_state in
  let st := stats player_state in
  let player_state :=
    if String.eqb profession "hustler"
    then set_stats (set_street_smarts (street_smarts st + 2) st) player_state
    else if String.eqb profession "intellectual"
    then set_stats (set_intellect (intellect st + 2) st) player_state
    else if String.eqb profession "charmer"
    then set_stats (set_charm (charm st + 2) st) player_state
    else player_state in
  let player_state := set_character_created true player_state in
  update_player_state (IntId user_id) player_state ;;;
  let* text := lift (get_text "character_creation_complete" lang
                       [("name", show (name player_state))]) in
  send (edit_message_text text None None) ;;;
  show_main_menu true user_id.

(** The loop over [location_info['locations']] of the look action:
    [continue] on a place that requires VIP when the player is not one,
    else one more line of text. *)
Fixpoint look_places (lang : string) (player_is_vip : bool) (locs : list string)
    (text : string) : Res string :=
  match locs with
  | [] => inr text
  | loc_key :: rest =>
      res_bind (getitem LOCATIONS loc_key) (fun loc =>
      if (get_flag loc "requires_vip" && negb player_is_vip)%bool
      then look_places lang player_is_vip rest text
      else
        res_bind (getstr loc ("name_" +:+ lang)) (fun loc_name =>
        look_places lang player_is_vip rest (text +:+ NL +:+ "- " +:+ loc_name)))
  end.

(** The loop over the NPCs of the look action: each one gets a talk
    button put in front of the keyboard. *)
Fixpoint look_npcs (lang : string) (npcs : list string) (keyboard : Keyboard)
    : Res Keyboard :=
  match npcs with
  | [] => inr keyboard
  | npc_key :: rest =>
      res_bind (getitem NPCS npc_key) (fun npc =>
      res_bind (getstr npc ("name_" +:+ lang)) (fun npc_name =>
      res_bind (get_text "talk_to" lang []) (fun talk_to =>
      look_npcs lang rest
        ([("🗣️ " +:+ talk_to +:+ " " +:+ npc_name, "talk_" +:+ npc_key)] :: keyboard))))
  end.

(** [main_look] *)
Definition button_look (user_id : Z) (player_state : Player) (lang : string) : M unit :=
  let current_location_key := location player_state in
  let* location_info := lift (getitem GAME_MAP current_location_key) in
  let* location_name := lift (getstr location_info ("name_" +:+ lang)) in
  let* location_desc := lift (getstr location_info ("description_" +:+ lang)) in
  let text := "📍 *" +:+ location_name +:+ "*" +:+ NL +:+ NL +:+ location_desc in
  (* Check if God is here *)
  let* admin_state := get_player_state (IntId ADMIN_USER_ID) in
  let* text :=
    if (String.eqb (location admin_state) current_location_key
        && negb (is_admin user_id))%bool
    then
      let* god := lift (get_text "god_presence" lang []) in
      ret (text +:+ NL +:+ NL +:+ "_" +:+ god +:+ "_")
    else ret text in
  (* Show locations within the district *)
  let* back := lift (get_text "back_button" lang []) in
  let keyboard : Keyboard := [[("« " +:+ back, "main_back")]] in
  let* locs := lift (getlist location_info "locations") in
  let* text :=
    match locs with
    | [] => ret text
    | _ =>
        let* places := lift (get_text "places_in_district" lang []) in
        lift (look_places lang (is_vip player_state) locs
                (text +:+ NL +:+ NL +:+ places +:+ ":"))
    end in
  (* Show NPCs in the area *)
  let* shown :=
    match dict_get LOCATIONS current_location_key with
    | Some ((_ :: _) as here) =>
        let* npcs := lift (getlist here "npcs") in
        match npcs with
        | [] => ret (text, keyboard)
        | _ =>
            let* people := lift (get_text "npcs_in_area" lang []) in
            let* keyboard := lift (look_npcs lang npcs keyboard) in
            ret (text +:+ NL +:+ NL +:+ people +:+ ":", keyboard)
        end
    | _ => ret (text, keyboard)
    end in
  send (edit_message_text (fst shown) (Some "Markdown") (Some (snd shown))).

(** The loop of [main_move]: one button per connection. *)
Fixpoint move_buttons (lang : string) (connections : list string) (keyboard : Keyboard)
    : Res Keyboard :=
  match connections with
  | [] => inr keyboard
  | conn_key :: rest =>
      res_bind (getitem GAME_MAP conn_key) (fun conn =>
      res_bind (getstr conn ("name_" +:+ lang)) (fun conn_name =>
      move_buttons lang rest (keyboard ++ [[(conn_name, "move_to_" +:+ conn_key)]])))
  end.

(** [main_move] *)
Definition button_move_menu (player_state : Player) (lang : string) : M unit :=
  let current_location_key := location player_state in
  let* location_info := lift (getitem GAME_MAP current_location_key) in
  let* connections := lift (getlist location_info "connections") in
  let* keyboard := lift (move_buttons lang connections []) in
  let* back := lift (get_text "back_button" lang []) in
  let keyboard := keyboard ++ [[("« " +:+ back, "main_back")]] in
  let* prompt := lift (get_text "move_prompt" lang []) in
  send (edit_message_text prompt None (Some keyboard)).

(** [main_profile] *)
Definition button_profile (user_id : Z) (player_state : Player) (lang : string) : M unit :=
  let st := stats player_state in
  let* vip_status :=
    lift (if is_vip player_state then get_text "vip_status_yes" lang []
          else get_text "vip_status_no" lang []) in
  let* profession_text :=
    lift (get_text ("prof_" +:+ show (profession player_state)) lang []) in
  let* profile_text :=
    lift (get_text "profile_view" lang
            [("name", show (name player_state));
             ("profession", profession_text);
             ("charm", Py.str (charm st));
             ("intellect", Py.str (intellect st));
             ("street_smarts", Py.str (street_smarts st));
             ("currency", Py.str (currency player_state));
             ("vip_status", vip_status)]) in
  send (edit_message_text profile_text (Some "Markdown") None) ;;;
  show_main_menu true user_id.

(** [main_inventory] *)
Definition button_inventory (user_id : Z) (player_state : Player) (lang : string) : M unit :=
  let inventory := inventory player_state in
  let* text :=
    match inventory with
    | [] => lift (get_text "inventory_empty" lang [])
    | _ =>
        let* title := lift (get_text "menu_inventory" lang []) in
        ret (fold_left (fun text item => text +:+ "- " +:+ item +:+ NL) inventory
               ("*" +:+ title +:+ "*" +:+ NL))
    end in
  send (edit_message_text text (Some "Markdown") None) ;;;
  show_main_menu true user_id.

(** [move_to_<key>]: the location is stored first, the name of the
    destination is looked up afterwards. *)
Definition button_move_to (user_id : Z) (data : string) (player_state : Player)
    (lang : string) : M unit :=
  let destination_key := Py.replace data "move_to_" "" in
  let player_state := set_location destination_key player_state in
  update_player_state (IntId user_id) player_state ;;;
  let* destination := lift (getitem GAME_MAP destination_key) in
  let* destination_name := lift (getstr destination ("name_" +:+ lang)) in
  let* text := lift (get_text "move_success" lang [("location", destination_name)]) in
  send (edit_message_text text None None) ;;;
  show_main_menu true user_id.

(** [talk_<npc>] *)
Definition button_talk (user_id : Z) (data : string) (lang : string) : M unit :=
  let npc_key := Py.replace data "talk_" "" in
  let* npc := lift (getitem NPCS npc_key) in
  let* npc_dialogue := lift (getstr npc ("dialogue_" +:+ lang)) in
  send (edit_message_text ("_" +:+ npc_dialogue +:+ "_") (Some "Markdown") None) ;;;
  show_main_menu true user_id.

(** [query.effective_user]: a [CallbackQuery] of the chat library names
    the user who pressed the button [from_user] and has no attribute
    [effective_user] (that one belongs to the [Update], where the other
    handlers read it), so reading it raises. *)
Definition query_effective_user : M Z := raise AttributeError.

(** [data] is [query.data].  The callback is answered first; the next
    line reads the id of the user from the query. *)
Definition button_handler (data : string) : M unit :=
  send answer_callback ;;;
  let* user_id := query_effective_user in
  let* player_state := get_player_state (IntId user_id) in
  let lang := lang player_state in
  if (Py.startswith data "approve_" || Py.startswith data "reject_")%bool then
    button_approval user_id data
  else if Py.startswith data "set_lang_" then
    button_language user_id data player_state
  else if Py.startswith data "set_prof_" then
    button_profession user_id data player_state lang
  else
    (if String.eqb data "main_look" then button_look user_id player_state lang
     else if String.eqb data "main_move" then button_move_menu player_state lang
     else if String.eqb data "main_profile" then button_profile user_id player_state lang
     else if String.eqb data "main_inventory" then button_inventory user_id player_state lang
     else if String.eqb data "main_language" then
       send (edit_message_text "Choose your language / زبان خود را انتخاب کنید"
               None (Some language_keyboard))
     else if String.eqb data "main_back" then show_main_menu true user_id
     else ret tt) ;;;
    (if Py.startswith data "move_to_"
     then button_move_to user_id data player_state lang
     else ret tt) ;;;
    (if Py.startswith data "talk_"
     then button_talk user_id data lang
     else ret tt).

(** *** Admin commands *)

(** The [except (IndexError, ValueError)] clause of the admin commands. *)
Definition usage (text : string) (e : Exn) : M unit :=
  match e with
  | IndexError | ValueError => send (reply_text text None None)
  | _ => raise e
  end.

(** [str(e)] of a caught exception; only a [KeyError] carries text here. *)
Definition exn_text (e : Exn) : string :=
  match e with
  | KeyError k => "'" +:+ k +:+ "'"
  | _ => ""
  end.

(** [/playerinfo <id>]; the reply is the JSON dump of the record,
    recorded as [reply_json]. *)
Definition player_info_command (user_id : Z) (args : list string) : M unit :=
  if negb (is_admin user_id) then ret tt
  else
    try_except
      (let* target_user_id :=
         lift (match args with a :: _ => inr a | [] => inl IndexError end) in
       let* player_data := get_player_state (StrId target_user_id) in
       send (reply_json player_data))
      (fun e =>
         match e with
         | IndexError | ValueError =>
             send (reply_text "Usage: /playerinfo <user_id>" None None)
         | _ => send (reply_text ("Error: " +:+ exn_text e) None None)
         end).

(** [/setstat <id> <stat> <val>] *)
Definition set_stat_command (user_id : Z) (args : list string) : M unit :=
  if negb (is_admin user_id) then ret tt
  else
    try_except
      (let* parts := lift (unpack3 args) in
       let target_user_id := fst (fst parts) in
       let* value := lift (to_int (snd parts)) in
       let stat_name := Py.lower (snd (fst parts)) in
       let* players := load_player_data in
       let target_user_id_str := py_key (StrId target_user_id) in
       match players !! target_user_id_str with
       | None =>
           send (reply_text ("Player " +:+ target_user_id +:+ " not found.") None None)
       | Some p =>
           let st := stats p in
           let changed :=
             if String.eqb stat_name "charm" then Some (set_charm value st)
             else if String.eqb stat_name "intellect" then Some (set_intellect value st)
             else if String.eqb stat_name "street_smarts" then Some (set_street_smarts value st)
             else None in
           match changed with
           | None =>
               send (reply_text "Invalid stat. Use: charm, intellect, street_smarts." None None)
           | Some st' =>
               let players := <[target_user_id_str := set_stats st' p]> players in
               save_player_data players ;;;
               send (reply_text
                       ("Set " +:+ stat_name +:+ " to " +:+ Py.str value +:+
                        " for player " +:+ target_user_id +:+ ".") None None)
           end
       end)
      (fun e =>
         match e with
         | IndexError | ValueError =>
             send (reply_text "Usage: /setstat <user_id> <stat_name> <value>" None None)
         | _ => send (reply_text ("An error occurred: " +:+ exn_text e) None None)
         end).

(** [/giveitem <id> <item>] *)
Definition give_item_command (user_id : Z) (args : list string) : M unit :=
  if negb (is_admin user_id) then ret tt
  else
    try_except
      (let* target_user_id :=
         lift (match args with a :: _ => inr a | [] => inl IndexError end) in
       let item_name := Py.join " " (tail args) in
       if String.eqb item_name "" then raise ValueError
       else
         let* players := load_player_data in
         let target_user_id_str := py_key (StrId target_user_id) in
         match players !! target_user_id_str with
         | None =>
             send (reply_text ("Player " +:+ target_user_id +:+ " not found.") None None)
         | Some p =>
             let players :=
               <[target_user_id_str := set_inventory (inventory p ++ [item_name]) p]> players in
             save_player_data players ;;;
             send (reply_text
                     ("Gave '" +:+ item_name +:+ "' to player " +:+ target_user_id +:+ ".")
                     None None)
         end)
      (usage "Usage: /giveitem <user_id> <item_name>").

(** [/givemoney <id> <amount>] *)
Definition give_money_command (user_id : Z) (args : list string) : M unit :=
  if negb (is_admin user_id) then ret tt
  else
    try_except
      (let* parts := lift (unpack2 args) in
       let target_user_id := fst parts in
       let* amount := lift (to_int (snd parts)) in
       let* players := load_player_data in
       let target_user_id_str := py_key (StrId target_user_id) in
       match players !! target_user_id_str with
       | None =>
           send (reply_text ("Player " +:+ target_user_id +:+ " not found.") None None)
       | Some p =>
           let p := set_currency (currency p + amount) p in
           let players := <[target_user_id_str := p]> players in
           save_player_data players ;;;
           send (reply_text
                   ("Gave " +:+ Py.str amount +:+ " CC to player " +:+ target_user_id +:+
                    ". New balance: " +:+ Py.str (currency p) +:+ ".") None None)
       end)
      (usage "Usage: /givemoney <user_id> <amount>").

(** [/setvip <id> <on|off>] *)
Definition set_vip_command (user_id : Z) (args : list string) : M unit :=
  if negb (is_admin user_id) then ret tt
  else
    try_except
      (let* parts := lift (unpack2 args) in
       let target_user_id := fst parts in
       let status := snd parts in
       if negb (String.eqb (Py.lower status) "on" || String.eqb (Py.lower status) "off")%bool
       then raise ValueError
       else
         let vip := String.eqb (Py.lower status) "on" in
         let* players := load_player_data in
         let target_user_id_str := py_key (StrId target_user_id) in
         match players !! target_user_id_str with
         | None =>
             send (reply_text ("Player " +:+ target_user_id +:+ " not found.") None None)
         | Some p =>
             let players := <[target_user_id_str := set_is_vip vip p]> players in
             save_player_data players ;;;
             send (reply_text
                     ("Set VIP status for player " +:+ target_user_id +:+ " to " +:+
                      Py.upper status +:+ ".") None None)
         end)
      (usage "Usage: /setvip <user_id> <on|off>").

(** [/teleport <id> <loc_key>]: the key is checked against [GAME_MAP]
    before anything is written. *)
Definition teleport_command (user_id : Z) (args : list string) : M unit :=
  if negb (is_admin user_id) then ret tt
  else
    try_except
      (let* parts := lift (unpack2 args) in
       let target_user_id := fst parts in
       let location_key := snd parts in
       match dict_get GAME_MAP location_key with
       | None =>
           send (reply_text
                   ("Invalid location key. Valid keys: " +:+
                    Py.join ", " (dict_keys GAME_MAP)) None None)
       | Some _ =>
           let* players := load_player_data in
           let target_user_id_str := py_key (StrId target_user_id) in
           match players !! target_user_id_str with
           | None =>
               send (reply_text ("Player " +:+ target_user_id +:+ " not found.") None None)
           | Some p =>
               let players := <[target_user_id_str := set_location location_key p]> players in
               save_player_data players ;;;
               send (reply_text
                       ("Teleported player " +:+ target_user_id +:+ " to " +:+
                        location_key +:+ ".") None None)
           end
       end)
      (usage "Usage: /teleport <user_id> <location_key>").

(** *** Dispatch *)

(** The updates the handlers registered in [main] react to.  The three
    commands that only send messages ([/adminhelp], [/broadcast],
    [/whisper]) touch neither the file nor the cursors and are left out.
    [Text] is a message with a text; [is_command] tells whether it starts
    with a bot command, in which case the filter
    [filters.TEXT & ~filters.COMMAND] keeps it from [message_handler].
    [Pressed] carries the user who pressed and the payload of the button.
    Messages are new messages: an edited message, for which
    [update.message] is [None], is not among the updates modelled. *)
Inductive Event :=
| Start (user_id : Z)
| Text (user_id : Z) (text : string) (is_command : bool)
| Voice (user_id : Z) (full_name file_id : string)
| Pressed (user_id : Z) (data : string)
| PlayerInfo (user_id : Z) (args : list string)
| SetStat (user_id : Z) (args : list string)
| GiveItem (user_id : Z) (args : list string)
| GiveMoney (user_id : Z) (args : list string)
| SetVip (user_id : Z) (args : list string)
| Teleport (user_id : Z) (args : list string).

Definition handle (ev : Event) : M unit :=
  match ev with
  | Start user_id => start_command user_id
  | Text user_id text is_command =>
      if is_command then ret tt else message_handler user_id text
  | Voice user_id full_name file_id => voice_handler user_id full_name file_id
  | Pressed _ data => button_handler data
  | PlayerInfo user_id args => player_info_command user_id args
  | SetStat user_id args => set_stat_command user_id args
  | GiveItem user_id args => give_item_command user_id args
  | GiveMoney user_id args => give_money_command user_id args
  | SetVip user_id args => set_vip_command user_id args
  | Teleport user_id args => teleport_command user_id args
  end.

(** One update: an exception that leaves the handler is logged by the
    framework and the bot goes on with the world as the handler left it. *)
Definition step (w : World) (ev : Event) : World := fst (handle ev w).

(** The world after a sequence of updates. *)
Definition run (evs : list Event) (w : World) : World := fold_left step evs w.

(** The stored collection and one stored record. *)
Definition players_of (w : World) : gmap string Player := default ∅ (db_file w).

Definition stored (w : World) (user_id : pyid) : option Player :=
  players_of w !! py_key user_id.

End Bot.

(** ** Character classes used in the statements *)

Fixpoint has_char (c : ascii) (s : string) : bool :=
  match s with
  | EmptyString => false
  | String c' r => (Ascii.eqb c' c || has_char c r)%bool
  end.

Fixpoint all_digits (s : string) : bool :=
  match s with
  | EmptyString => true
  | String c r =>
      (match Ascii.is_nat c with Some _ => true | None => false end && all_digits r)%bool
  end.

(** ** Statements that the code does not satisfy, as written in the
    specification *)

(** The admin query on [id] answers with the defaulted record and leaves an
    entry for [id] in the stored collection. *)
Definition player_info_creates_record (ADMIN_USER_ID : Z) (w : World) (id : string) : Prop :=
  let w' := fst (player_info_command ADMIN_USER_ID ADMIN_USER_ID [id] w) in
  In (reply_json default_player) (outbox w') /\ is_Some (players_of w' !! id).

(** ** Worlds for the worked instances *)

(** The admin id the source falls back to when the environment gives none. *)
Definition DEFAULT_ADMIN_USER_ID : Z := 123456789.

(** A player who has sent one voice clip and waits for the admin. *)
Definition pending_player : Player :=
  set_voice_file_id (Some "clip-1") (set_pending_approval true default_player).

(** A world whose file holds the single record [p] under [id]. *)
Definition world_with (id : string) (p : Player) : World :=
  mkWorld (Some {[ id := p ]}) ∅ [].


(** ** Definitions used to state the claims about moving and professions *)

(** A player who went through approval and character creation. *)
Definition created_player : Player :=
  mkPlayer "en" true false (Some "clip-1") true (Some "Bob") (Some "charmer")
    "downtown" [] (mkStats 3 1 1) 100 false.


(** ** Invariants of the stored collection *)

(** [m] keeps the property [I] of the stored collection, whether it
    finishes or raises, and a value it returns satisfies [Q]. *)
Definition triple {A} (I : gmap string Player -> Prop) (m : M A) (Q : A -> Prop) : Prop :=
  forall w, I (players_of w) ->
            I (players_of (fst (m w))) /\ (forall a, snd (m w) = inr a -> Q a).

(** Every stored record satisfies [P]. *)
Definition all_players (P : Player -> Prop) (m : gmap string Player) : Prop :=
  forall k p, m !! k = Some p -> P p.

(** The approval flags of a record are coherent: never approved and pending
    at once, and a pending record carries its voice clip. *)
Definition flags_coherent (p : Player) : Prop :=
  (approved p && pending_approval p)%bool = false
  /\ (pending_approval p = true -> voice_file_id p <> None).

(** The location of a record is a district of the world graph. *)
Definition location_valid (p : Player) : Prop :=
  is_Some (dict_get GAME_MAP (location p)).

(** A press of a move button whose destination is not a district of the
    graph. *)
Definition bad_move (ev : Event) : Prop :=
  match ev with
  | Pressed _ data =>
      Py.startswith data "move_to_" = true
      /\ dict_get GAME_MAP (Py.replace data "move_to_" "") = None
  | _ => False
  end.

(** An update that may write the record of someone else than its sender:
    the approve and reject buttons and the admin commands. *)
Definition sender (ev : Event) : option Z :=
  match ev with
  | Start user_id => Some user_id
  | Text user_id _ _ => Some user_id
  | Voice user_id _ _ => Some user_id
  | Pressed user_id data =>
      if (Py.startswith data "approve_" || Py.startswith data "reject_")%bool
      then None else Some user_id
  | _ => None
  end.

(** An update that only reads the file: [/start], [/playerinfo], and every
    button whose payload has none of the five writing prefixes. *)
Definition read_only (ev : Event) : Prop :=
  match ev with
  | Start _ => True
  | PlayerInfo _ _ => True
  | Pressed _ data =>
      Py.startswith data "approve_" = false
      /\ Py.startswith data "reject_" = false
      /\ Py.startswith data "set_lang_" = false
      /\ Py.startswith data "set_prof_" = false
      /\ Py.startswith data "move_to_" = false
  | _ => False
  end.

(** ** The help command and the replies of the admin commands *)

(** The text of [/adminhelp]. *)
Definition help_text : string :=
  NL +:+
  "    *Crimson City God Mode*" +:+
  NL +:+
  "    /adminhelp - This message" +:+
  NL +:+
  "    /broadcast <msg> - Send message to all players" +:+
  NL +:+
  "    /playerinfo <id> - Get player's data" +:+
  NL +:+
  "    /setstat <id> <stat> <val> - Set a player's stat" +:+
  NL +:+
  "    /giveitem <id> <item> - Give item to player" +:+
  NL +:+
  "    /givemoney <id> <amount> - Give currency to player" +:+
  NL +:+
  "    /setvip <id> <on|off> - Set VIP status for a player" +:+
  NL +:+
  "    /teleport <id> <loc_key> - Teleport a player" +:+
  NL +:+
  "    /whisper <id> <msg> - Send a private message to a player" +:+
  NL +:+
  "    ".

(** [/adminhelp] *)
Definition admin_help_command (ADMIN_USER_ID user_id : Z) : M unit :=
  if negb (is_admin ADMIN_USER_ID user_id)
  then send (reply_text "You are not worthy." None None)
  else send (reply_text help_text (Some "Markdown") None).

(** The world after one more message. *)
Definition sent (w : World) (o : Out) : World :=
  mkWorld (db_file w) (user_data w) (outbox w ++ [o]).

(** The world after a save of [players] and one more message. *)
Definition saved (w : World) (players : gmap string Player) (o : Out) : World :=
  mkWorld (Some players) (user_data w) (outbox w ++ [o]).

Definition not_found (id : string) : Out :=
  reply_text ("Player " +:+ id +:+ " not found.") None None.

(** ** Definitions used to state the properties of the texts *)

Definition is_inr {A B} (r : A + B) : bool :=
  match r with
  | inr _ => true
  | inl _ => false
  end.

(** An approved player without a character, and a world in which that
    player is being asked for a name. *)
Definition approved_player : Player :=
  mkPlayer "en" true false (Some "clip-1") false None None "downtown" []
    (mkStats 1 1 1) 100 false.

Definition asking_name_world : World :=
  mkWorld (Some {[ "42" := approved_player ]}) {[ 42 := Some "create_character_name" ]} [].

(** ** Definitions used to state the claims about the buttons *)


(** An update that is a button press. *)
Definition is_press (ev : Event) : bool :=
  match ev with
  | Pressed _ _ => true
  | _ => false
  end.

(** A record that has not got past the request for approval: not approved,
    no character, no name, no profession, and the language it was created
    with. *)
Definition newcomer (p : Player) : Prop :=
  approved p = false /\ character_created p = false /\ name p = None
  /\ profession p = None /\ lang p = "en".

(** ** Definitions used to state which updates can raise *)




(** ** Definitions used to state what a button press leaves behind *)

(** Two worlds with the same file and the same conversation data; the
    messages sent so far may differ. *)
Definition same_store (w w' : World) : Prop :=
  db_file w = db_file w' /\ user_data w = user_data w'.

(** [m] does not look at the messages sent so far: from worlds with the
    same store it ends with the same result and the same store. *)
Definition oblivious {A} (m : M A) : Prop :=
  forall w w', same_store w w' ->
               same_store (fst (m w)) (fst (m w')) /\ snd (m w) = snd (m w').

(** The updates of a sequence that are not button presses. *)
Definition without_presses (evs : list Event) : list Event :=
  List.filter (fun ev => negb (is_press ev)) evs.

(** * Properties *)
(** ** Examples of the primitives *)

Example split_approve : Py.split "_" "approve_42" = ["approve"; "42"].
Proof. reflexivity. Qed.

Example replace_move : Py.replace "move_to_the_plaza" "move_to_" "" = "the_plaza".
Proof. reflexivity. Qed.

Example replace_twice : Py.replace "move_to_xmove_to_y" "move_to_" "" = "xy".
Proof. reflexivity. Qed.

Example int_examples :
  Py.int "007" = Some 7 /\ Py.int "-50" = Some (-50) /\ Py.int "1_000" = Some 1000
  /\ Py.int "" = None /\ Py.int "1__0" = None /\ Py.int "12a" = None
  /\ Py.int " +5 " = Some 5 /\ Py.int "-" = None.
Proof. repeat split; reflexivity. Qed.

(** Digits and blanks of other scripts count; the separator [\x1c] does
    not, although [str.isspace] holds for it. *)
Example int_beyond_ascii :
  Py.int "۵۰" = Some 50 /\ Py.int "-٣٣" = Some (-33) /\ Py.int "５_５" = Some 55
  /\ Py.int (String (ascii_of_nat 28) "5") = None /\ Py.int "5é" = None.
Proof. repeat split; reflexivity. Qed.

Example str_examples : Py.str 0 = "0" /\ Py.str (-50) = "-50" /\ Py.str 123456789 = "123456789".
Proof. repeat split; reflexivity. Qed.

Example get_text_welcome :
  get_text "welcome_back" "en" [("name", "Ada")] = inr "Welcome back, Ada. The city awaits.".
Proof. reflexivity. Qed.

Example get_text_missing_key : get_text "no_such_key" "xx" [] = inr "no_such_key".
Proof. reflexivity. Qed.

Example format_examples :
  format "{{{name}}}" [("name", "Ada")] = inr "{Ada}"
  /\ format "{name!s:}" [("name", "Ada")] = inr "Ada"
  /\ format "{0}" [("name", "Ada")] = inl IndexError
  /\ format "{}" [("name", "Ada")] = inl IndexError
  /\ format "{nick}" [("name", "Ada")] = inl (KeyError "nick")
  /\ format "{name!x}" [("name", "Ada")] = inl ValueError
  /\ format "{name" [("name", "Ada")] = inl ValueError
  /\ format "{nick} }" [("name", "Ada")] = inl (KeyError "nick").
Proof. repeat split; reflexivity. Qed.


(** ** Facts about the string primitives *)

Lemma digit_cases (c : ascii) :
  match Ascii.is_nat c with Some _ => true | None => false end = true ->
  Py.blank c = false /\ Ascii.eqb c "_" = false /\ Ascii.eqb c "-" = false
  /\ Ascii.eqb c "+" = false /\ Py.int_char (N_of_ascii c) = Some c.
Proof.
  destruct c as [[|] [|] [|] [|] [|] [|] [|] [|]]; cbn; intros H;
    try discriminate H; repeat split; reflexivity.
Qed.

Lemma all_digits_of_uint (d : Decimal.uint) : all_digits (NilEmpty.string_of_uint d) = true.
Proof. induction d; cbn; auto. Qed.

Lemma of_uint_nonempty (d : Decimal.uint) :
  d <> Decimal.Nil -> NilEmpty.string_of_uint d <> EmptyString.
Proof. destruct d; cbn; congruence. Qed.

Lemma skip_blanks_digits s : all_digits s = true -> Py.skip_blanks s = s.
Proof.
  destruct s as [|c r]; cbn; [reflexivity|].
  intros [Hc _]%andb_prop. destruct (digit_cases c Hc) as (-> & _). reflexivity.
Qed.

Lemma drop_blanks_digits s : all_digits s = true -> Py.drop_blanks s = s.
Proof.
  induction s as [|c r IH]; cbn; [reflexivity|].
  intros [Hc Hr]%andb_prop. rewrite (IH Hr).
  destruct (digit_cases c Hc) as (-> & _). destruct r; reflexivity.
Qed.

Lemma digit_groups_digits s b :
  all_digits s = true -> (s <> EmptyString \/ b = true) -> Py.digit_groups b s = Some s.
Proof.
  revert b. induction s as [|c r IH]; intros b Hd Hne.
  - destruct Hne as [Hne| ->]; [congruence | reflexivity].
  - cbn in Hd. apply andb_prop in Hd as [Hc Hr]. cbn.
    destruct (digit_cases c Hc) as (_ & -> & _).
    rewrite (IH true Hr) by (right; reflexivity). reflexivity.
Qed.

(** A text of ASCII digits is its own code points, and the first step of
    [int] leaves it as it is. *)
Lemma int_chars_digits s :
  all_digits s = true ->
  exists cps, Py.code_points s = Some cps /\ Py.int_chars cps = Some s.
Proof.
  induction s as [|c r IH]; [exists []; split; reflexivity|].
  cbn [all_digits]. intros [Hc Hr]%andb_prop.
  destruct (IH Hr) as (cps & Hcps & Hchars).
  destruct (digit_cases c Hc) as (_ & _ & _ & _ & Hchar).
  exists (N_of_ascii c :: cps). split.
  - cbn [Py.code_points]. rewrite Hcps.
    replace (N_of_ascii c <? 128)%N with true; [reflexivity|].
    clear -Hc. destruct c as [[|] [|] [|] [|] [|] [|] [|] [|]]; cbn in *;
      try discriminate Hc; reflexivity.
  - cbn [Py.int_chars]. rewrite Hchar, Hchars. reflexivity.
Qed.

Lemma int_ascii_digits s u :
  all_digits s = true -> s <> EmptyString -> NilEmpty.uint_of_string s = Some u ->
  Py.int_ascii s = Some (Z.of_uint u) /\ Py.int_ascii (String "-" s) = Some (- Z.of_uint u).
Proof.
  intros Hd Hne Hu. unfold Py.int_ascii. split.
  - rewrite (skip_blanks_digits _ Hd), (drop_blanks_digits _ Hd).
    destruct s as [|c r]; [congruence|].
    pose proof Hd as Hd'. cbn in Hd'. apply andb_prop in Hd' as [Hc _].
    destruct (digit_cases c Hc) as (_ & _ & -> & -> & _).
    rewrite digit_groups_digits by (auto; left; congruence). rewrite Hu. reflexivity.
  - change (Py.skip_blanks (String "-" s)) with (String "-" s).
    change (Py.drop_blanks (String "-" s)) with
      (match Py.drop_blanks s with
       | EmptyString => String "-" EmptyString
       | r' => String "-" r'
       end).
    rewrite (drop_blanks_digits _ Hd). destruct s as [|c r]; [congruence|].
    cbn [Ascii.eqb Bool.eqb].
    rewrite digit_groups_digits by (auto; left; congruence). rewrite Hu. reflexivity.
Qed.

Lemma int_of_digits s u :
  all_digits s = true -> s <> EmptyString -> NilEmpty.uint_of_string s = Some u ->
  Py.int s = Some (Z.of_uint u) /\ Py.int (String "-" s) = Some (- Z.of_uint u).
Proof.
  intros Hd Hne Hu. destruct (int_chars_digits s Hd) as (cps & Hcps & Hchars).
  destruct (int_ascii_digits s u Hd Hne Hu) as [H1 H2]. unfold Py.int. split.
  - rewrite Hcps, Hchars. exact H1.
  - change (Py.code_points (String "-" s)) with (option_map (cons 45%N) (Py.code_points s)).
    rewrite Hcps. cbn [option_map].
    change (Py.int_chars (45%N :: cps))
      with (match Py.int_chars cps with
            | Some t => Some (String "-" t)
            | None => None
            end).
    rewrite Hchars. exact H2.
Qed.

(** [int(str(n)) == n] *)
Lemma int_str (z : Z) : Py.int (Py.str z) = Some z.
Proof.
  destruct z as [|p|p]; [reflexivity| |].
  - unfold Py.str. cbn [Z.to_int NilZero.string_of_int].
    assert (Hn := Unsigned.to_uint_nonnil p).
    replace (NilZero.string_of_uint (Pos.to_uint p))
      with (NilEmpty.string_of_uint (Pos.to_uint p))
      by (destruct (Pos.to_uint p); [congruence | reflexivity ..]).
    destruct (int_of_digits _ (Pos.to_uint p) (all_digits_of_uint _)
                (of_uint_nonempty _ Hn) (NilEmpty.usu _)) as [-> _].
    f_equal. unfold Z.of_uint. rewrite Unsigned.of_to. reflexivity.
  - unfold Py.str. cbn [Z.to_int NilZero.string_of_int].
    assert (Hn := Unsigned.to_uint_nonnil p).
    replace (NilZero.string_of_uint (Pos.to_uint p))
      with (NilEmpty.string_of_uint (Pos.to_uint p))
      by (destruct (Pos.to_uint p); [congruence | reflexivity ..]).
    destruct (int_of_digits _ (Pos.to_uint p) (all_digits_of_uint _)
                (of_uint_nonempty _ Hn) (NilEmpty.usu _)) as [_ ->].
    f_equal. unfold Z.of_uint. rewrite Unsigned.of_to. reflexivity.
Qed.

Lemma str_inj (a b : Z) : Py.str a = Py.str b -> a = b.
Proof.
  intros H. assert (E : Py.int (Py.str a) = Py.int (Py.str b)) by (rewrite H; reflexivity).
  rewrite !int_str in E. congruence.
Qed.


(** ** The store *)

Section StoreFacts.

Variable ADMIN_USER_ID : Z.

Lemma is_admin_self : is_admin ADMIN_USER_ID ADMIN_USER_ID = true.
Proof. apply Z.eqb_refl. Qed.

Lemma players_of_db (w : World) (m : gmap string Player) :
  db_file w = Some m -> players_of w = m.
Proof. unfold players_of. intros ->. reflexivity. Qed.

Lemma players_of_mk (m : gmap string Player) ud ob :
  players_of (mkWorld (Some m) ud ob) = m.
Proof. reflexivity. Qed.

Lemma players_of_same (w w' : World) : db_file w' = db_file w -> players_of w' = players_of w.
Proof. unfold players_of. intros ->. reflexivity. Qed.

Lemma get_player_state_run (user_id : pyid) (w : World) :
  get_player_state user_id w
  = (w, inr (default default_player (players_of w !! py_key user_id))).
Proof.
  unfold get_player_state, bind, load_player_data, ret, raise, players_of.
  destruct (default ∅ (db_file w) !! py_key user_id) as [p|] eqn:E.
  - rewrite E. reflexivity.
  - rewrite lookup_insert_eq. reflexivity.
Qed.

Lemma update_player_state_run (user_id : pyid) (state : Player) (w : World) :
  update_player_state user_id state w
  = (mkWorld (Some (<[py_key user_id := state]> (players_of w))) (user_data w) (outbox w),
     inr tt).
Proof. reflexivity. Qed.

(** C5.  Writing the record of one player (load the collection, set the
    key, save) stores that record and leaves the record of every other
    key exactly as it was in the loaded collection. *)
Theorem update_player_state_frame (w : World) (p : pyid) (s : Player) (q : string) :
  q <> py_key p ->
  let w' := fst (update_player_state p s w) in
  players_of w' !! py_key p = Some s /\ players_of w' !! q = players_of w !! q.
Proof.
  intros Hq. rewrite update_player_state_run. cbn. split.
  - apply lookup_insert_eq.
  - apply lookup_insert_ne. congruence.
Qed.

(** C4 (as the code has it).  For an id that has no record, the admin
    query answers with the full defaulted record and leaves the stored
    file as it was: the default lives only in the collection loaded for
    the query, so the id still has no entry afterwards. *)
Theorem player_info_unknown_id (w : World) (id : string) (rest : list string) :
  players_of w !! id = None ->
  let r := player_info_command ADMIN_USER_ID ADMIN_USER_ID (id :: rest) w in
  r = (mkWorld (db_file w) (user_data w) (outbox w ++ [reply_json default_player]), inr tt)
  /\ players_of (fst r) !! id = None.
Proof.
  intros Hid. unfold player_info_command. rewrite is_admin_self. cbn [negb].
  unfold try_except, bind, lift. rewrite get_player_state_run. cbn [py_key].
  rewrite Hid. cbn. split; [reflexivity | exact Hid].
Qed.

(** C9.  For a stored record and any integer amount, the give-money
    command stores the old currency plus the amount, exactly and with no
    floor: the new balance is negative whenever the sum is. *)
Theorem give_money_adds (w : World) (id : string) (p : Player) (amount : Z) :
  players_of w !! id = Some p ->
  let r := give_money_command ADMIN_USER_ID ADMIN_USER_ID [id; Py.str amount] w in
  snd r = inr tt
  /\ players_of (fst r) !! id = Some (set_currency (currency p + amount) p)
  /\ (forall p', players_of (fst r) !! id = Some p' ->
        currency p' = currency p + amount
        /\ (amount < - currency p -> currency p' < 0)).
Proof.
  intros Hid. unfold give_money_command. rewrite is_admin_self. cbn [negb].
  unfold try_except, bind, lift, to_int. cbn [unpack2 fst snd].
  rewrite int_str. unfold load_player_data. fold (players_of w). cbn [py_key].
  rewrite Hid. cbn. rewrite lookup_insert_eq.
  split; [reflexivity | split; [reflexivity |]].
  intros p' [= <-]. cbn. split; [reflexivity | lia].
Qed.

(** The voice handler never touches the conversation cursors. *)
Lemma voice_handler_keeps_cursor (w : World) (user_id : Z) (full_name file_id : string) :
  user_data (fst (voice_handler ADMIN_USER_ID user_id full_name file_id w)) = user_data w.
Proof.
  unfold voice_handler, bind. rewrite get_player_state_run.
  set (p := default default_player (players_of w !! py_key (IntId user_id))).
  destruct (approved p || pending_approval p)%bool; unfold lift.
  - destruct (get_text "voice_already_submitted" (lang p) []); reflexivity.
  - rewrite update_player_state_run.
    destruct (get_text "approval_pending" (lang p) []); reflexivity.
Qed.

(** C6.  A voice clip from a player who is already pending or approved
    leaves the stored file untouched; and from any state, a second clip
    changes nothing that the first one wrote, neither in the file nor in
    the cursors: the stored voice reference is the one of the first
    submission and the player stays pending. *)
Theorem voice_resubmission (w : World) (user_id : Z)
    (full_name file_id full_name' file_id' : string) :
  let w1 := fst (voice_handler ADMIN_USER_ID user_id full_name file_id w) in
  let w2 := fst (voice_handler ADMIN_USER_ID user_id full_name' file_id' w1) in
  (forall p, stored w (IntId user_id) = Some p ->
             (approved p || pending_approval p)%bool = true ->
             db_file w1 = db_file w /\ stored w1 (IntId user_id) = Some p)
  /\ db_file w2 = db_file w1
  /\ (forall p, default default_player (stored w (IntId user_id)) = p ->
                (approved p || pending_approval p)%bool = false ->
                stored w2 (IntId user_id)
                = Some (set_voice_file_id (Some file_id) (set_pending_approval true p)))
  /\ user_data w2 = user_data w1.
Proof.
  assert (Hnoop : forall w0 fn fid p,
             default default_player (stored w0 (IntId user_id)) = p ->
             (approved p || pending_approval p)%bool = true ->
             db_file (fst (voice_handler ADMIN_USER_ID user_id fn fid w0)) = db_file w0).
  { intros w0 fn fid p Hp Hflag. unfold voice_handler, bind.
    rewrite get_player_state_run. fold (stored w0 (IntId user_id)).
    rewrite Hp, Hflag. unfold lift.
    destruct (get_text "voice_already_submitted" (lang p) []); reflexivity. }
  assert (Hfirst : forall w0 fn fid p,
             default default_player (stored w0 (IntId user_id)) = p ->
             (approved p || pending_approval p)%bool = false ->
             db_file (fst (voice_handler ADMIN_USER_ID user_id fn fid w0))
             = Some (<[Py.str user_id :=
                         set_voice_file_id (Some fid) (set_pending_approval true p)]>
                       (players_of w0))).
  { intros w0 fn fid p Hp Hflag. unfold voice_handler, bind.
    rewrite get_player_state_run. fold (stored w0 (IntId user_id)).
    rewrite Hp, Hflag. rewrite update_player_state_run. unfold lift.
    destruct (get_text "approval_pending" (lang p) []); reflexivity. }
  cbn zeta. split; [|split; [|split; [|apply voice_handler_keeps_cursor]]].
  - intros p Hp Hflag.
    assert (E := Hnoop w full_name file_id p ltac:(rewrite Hp; reflexivity) Hflag).
    split; [exact E|]. unfold stored. rewrite (players_of_same _ _ E). exact Hp.
  - set (p := default default_player (stored w (IntId user_id))).
    destruct (approved p || pending_approval p)%bool eqn:Hflag.
    + set (w1 := fst (voice_handler ADMIN_USER_ID user_id full_name file_id w)).
      assert (E : db_file w1 = db_file w) by (eapply Hnoop; [reflexivity | exact Hflag]).
      apply (Hnoop w1 _ _ p); [|exact Hflag].
      unfold stored. rewrite (players_of_same _ _ E). reflexivity.
    + set (w1 := fst (voice_handler ADMIN_USER_ID user_id full_name file_id w)).
      assert (E : db_file w1 = _) by (eapply Hfirst; [reflexivity | exact Hflag]).
      apply (Hnoop w1 _ _
               (set_voice_file_id (Some file_id) (set_pending_approval true p))).
      * unfold stored. rewrite (players_of_db _ _ E). cbn [py_key].
        rewrite lookup_insert_eq. reflexivity.
      * cbn. apply orb_true_r.
  - intros p Hp Hflag.
    set (w1 := fst (voice_handler ADMIN_USER_ID user_id full_name file_id w)).
    assert (E : db_file w1 = _) by (eapply Hfirst; [exact Hp | exact Hflag]).
    assert (E2 : db_file (fst (voice_handler ADMIN_USER_ID user_id full_name' file_id' w1))
                 = db_file w1).
    { apply (Hnoop w1 _ _
               (set_voice_file_id (Some file_id) (set_pending_approval true p))).
      - unfold stored. rewrite (players_of_db _ _ E). cbn [py_key].
        rewrite lookup_insert_eq. reflexivity.
      - cbn. apply orb_true_r. }
    unfold stored. rewrite (players_of_same _ _ E2), (players_of_db _ _ E). cbn [py_key].
    apply lookup_insert_eq.
Qed.
End StoreFacts.


(** *** Worked instances *)

(** The record of user 7 is written next to the record of user 8, which
    stays as it was. *)
Example update_player_state_frame_witness :
  "8" <> py_key (IntId 7)
  /\ (let w' := fst (update_player_state (IntId 7) created_player
                       (world_with "8" pending_player)) in
      players_of w' !! py_key (IntId 7) = Some created_player
      /\ players_of w' !! "8" = players_of (world_with "8" pending_player) !! "8")
  /\ players_of (world_with "8" pending_player) !! "8" = Some pending_player.
Proof.
  split; [discriminate|]. split.
  - apply (update_player_state_frame (world_with "8" pending_player) (IntId 7)
             created_player "8").
    discriminate.
  - vm_compute. reflexivity.
Defined.

(** On an empty store the query for ["999"] answers with the default record
    and the store still has no entry for ["999"]. *)
Example player_info_creates_no_record :
  players_of initial_world !! "999" = None
  /\ ~ player_info_creates_record DEFAULT_ADMIN_USER_ID initial_world "999".
Proof.
  split; [reflexivity|].
  intros [_ [p Hp]]. vm_compute in Hp. discriminate Hp.
Defined.

Example player_info_unknown_id_witness :
  players_of initial_world !! "999" = None
  /\ (let r := player_info_command DEFAULT_ADMIN_USER_ID DEFAULT_ADMIN_USER_ID ["999"]
                 initial_world in
      r = (mkWorld None ∅ [reply_json default_player], inr tt)
      /\ players_of (fst r) !! "999" = None).
Proof.
  split; [reflexivity|].
  exact (player_info_unknown_id DEFAULT_ADMIN_USER_ID initial_world "999" [] eq_refl).
Defined.

(** [/givemoney 7 -50] on a balance of 100 leaves 50; [/givemoney 7 -150]
    leaves -50. *)
Example give_money_adds_witness :
  players_of (world_with "7" default_player) !! "7" = Some default_player
  /\ players_of (fst (give_money_command DEFAULT_ADMIN_USER_ID DEFAULT_ADMIN_USER_ID
                        ["7"; "-50"] (world_with "7" default_player))) !! "7"
     = Some (set_currency 50 default_player)
  /\ players_of (fst (give_money_command DEFAULT_ADMIN_USER_ID DEFAULT_ADMIN_USER_ID
                        ["7"; "-150"] (world_with "7" default_player))) !! "7"
     = Some (set_currency (-50) default_player).
Proof.
  assert (H : players_of (world_with "7" default_player) !! "7" = Some default_player)
    by (vm_compute; reflexivity).
  split; [exact H|]. split.
  - exact (proj1 (proj2 (give_money_adds DEFAULT_ADMIN_USER_ID _ "7" default_player (-50) H))).
  - exact (proj1 (proj2 (give_money_adds DEFAULT_ADMIN_USER_ID _ "7" default_player (-150) H))).
Defined.

(** A second clip from the pending player 42 changes nothing in the file. *)
Example voice_resubmission_witness :
  stored (world_with "42" pending_player) (IntId 42) = Some pending_player
  /\ (approved pending_player || pending_approval pending_player)%bool = true
  /\ db_file (fst (voice_handler DEFAULT_ADMIN_USER_ID 42 "Bob" "clip-2"
                     (world_with "42" pending_player)))
     = db_file (world_with "42" pending_player).
Proof.
  assert (H : stored (world_with "42" pending_player) (IntId 42) = Some pending_player)
    by (vm_compute; reflexivity).
  split; [exact H|]. split; [reflexivity|].
  exact (proj1 (proj1 (voice_resubmission DEFAULT_ADMIN_USER_ID
                         (world_with "42" pending_player) 42 "Bob" "clip-2" "Bob" "clip-3")
                  pending_player H eq_refl)).
Defined.


(** ** Computations that leave the file alone *)












(** *** Running a handler step by step *)

Lemma run_bind_ret {A B} (a : A) (k : A -> M B) (w : World) : bind (ret a) k w = k a w.
Proof. reflexivity. Qed.

Lemma run_bind_send {B} (o : Out) (k : unit -> M B) (w : World) :
  bind (send o) k w = k tt (mkWorld (db_file w) (user_data w) (outbox w ++ [o])).
Proof. reflexivity. Qed.

Lemma run_bind_set_next_step {B} (u : Z) (v : option string) (k : unit -> M B) (w : World) :
  bind (set_next_step u v) k w
  = k tt (mkWorld (db_file w) (<[u := v]> (user_data w)) (outbox w)).
Proof. reflexivity. Qed.

Lemma run_bind_get_player_state {B} (user_id : pyid) (k : Player -> M B) (w : World) :
  bind (get_player_state user_id) k w
  = k (default default_player (players_of w !! py_key user_id)) w.
Proof. unfold bind. rewrite get_player_state_run. reflexivity. Qed.

Lemma run_bind_update_player_state {B} (user_id : pyid) (state : Player)
    (k : unit -> M B) (w : World) :
  bind (update_player_state user_id state) k w
  = k tt (mkWorld (Some (<[py_key user_id := state]> (players_of w)))
            (user_data w) (outbox w)).
Proof. reflexivity. Qed.

Lemma run_bind_lift_inr {A B} (a : A) (k : A -> M B) (w : World) :
  bind (lift (inr a)) k w = k a w.
Proof. reflexivity. Qed.

Lemma run_bind_assoc {A B C} (m : M A) (f : A -> M B) (g : B -> M C) (w : World) :
  bind (bind m f) g w = bind m (fun a => bind (f a) g) w.
Proof. unfold bind. destruct (m w) as [w' [e|a]]; reflexivity. Qed.

Lemma default_some {A} (d a : A) : default d (Some a) = a.
Proof. reflexivity. Qed.

(** Evaluate the pure computation at the head of a [bind] and the tests of
    the conditionals; push the world through the primitive steps. *)
Ltac run_pure :=
  match goal with
  | |- context [bind (lift ?r) ?k ?w] =>
      lazymatch r with
      | get_text _ _ _ => fail
      | _ => idtac
      end;
      let v := eval vm_compute in r in
      lazymatch v with
      | inr ?a => change (bind (lift r) k w) with (k a w)
      | inl ?e => change (bind (lift r) k w) with (w, @inl Exn unit e)
      end
  end.

Ltac run_test :=
  match goal with
  | |- context [if ?b then _ else _] =>
      let v := eval vm_compute in b in
      lazymatch v with
      | true => change b with true
      | false => change b with false
      end; cbv iota
  end.

Ltac run_step :=
  first
    [ rewrite run_bind_assoc
    | rewrite run_bind_ret
    | rewrite run_bind_send
    | rewrite run_bind_set_next_step
    | rewrite run_bind_get_player_state
    | rewrite run_bind_update_player_state
    | rewrite players_of_mk
    | rewrite lookup_insert_eq
    | rewrite default_some
    | run_pure
    | run_test
    | progress cbv beta zeta
    | progress cbn [py_key db_file user_data outbox fst snd] ].


(** ** Button presses *)

Section Buttons.

Variable ADMIN_USER_ID : Z.

(** Whatever the payload, the handler answers the callback and then fails
    to read the user from the query: no branch is reached. *)
Lemma button_handler_run (data : string) (w : World) :
  button_handler ADMIN_USER_ID data w = (sent w answer_callback, inl AttributeError).
Proof. reflexivity. Qed.

Lemma stored_sent (w : World) (o : Out) (user_id : pyid) :
  stored (sent w o) user_id = stored w user_id.
Proof. reflexivity. Qed.


(** C2.  An action that names an id of the world graph that does not
    resolve changes nothing in the store, so the stored record of the
    player, location included, is what it was: a move to an unknown
    district, a talk to an unknown person (both presses raise before any
    branch), and a teleport to an unknown district (the key is checked
    before the file is read). *)
Theorem unresolved_id_no_mutation (w : World) (user_id : Z) (data target key : string) :
  (Py.startswith data "move_to_" = true ->
   dict_get GAME_MAP (Py.replace data "move_to_" "") = None ->
   same_store (step ADMIN_USER_ID w (Pressed user_id data)) w)
  /\ (Py.startswith data "talk_" = true ->
      dict_get NPCS (Py.replace data "talk_" "") = None ->
      same_store (step ADMIN_USER_ID w (Pressed user_id data)) w)
  /\ (dict_get GAME_MAP key = None ->
      same_store (step ADMIN_USER_ID w (Teleport user_id [target; key])) w).
Proof.
  refine (conj _ (conj _ _)).
  - intros _ _. split; reflexivity.
  - intros _ _. split; reflexivity.
  - intros Hkey. unfold step. cbn [handle]. unfold teleport_command.
    destruct (negb (is_admin ADMIN_USER_ID user_id)); [split; reflexivity|].
    unfold try_except, bind, lift. cbn [unpack2 fst snd]. rewrite Hkey.
    split; reflexivity.
Qed.

(** C7: what the reject button does at a pending player.  The press of the
    admin raises before the approval branch: the record stays stored. *)
Theorem reject_keeps_record (w : World) (user_id : Z) (p : Player) :
  stored w (IntId user_id) = Some p ->
  pending_approval p = true ->
  let r := handle ADMIN_USER_ID
             (Pressed ADMIN_USER_ID ("reject_" +:+ Py.str user_id)) w in
  snd r = inl AttributeError
  /\ db_file (fst r) = db_file w
  /\ stored (fst r) (IntId user_id) = Some p.
Proof.
  intros Hp _ r. subst r. cbn [handle]. rewrite button_handler_run. cbn [fst snd].
  refine (conj eq_refl (conj eq_refl _)). rewrite stored_sent. exact Hp.
Qed.

(** C8: what the look button shows to a VIP.  The press raises before the
    look branch; the only message is the answer to the callback, so no
    place is listed. *)
Theorem vip_look_lists_nothing (w : World) (user_id : Z) (p : Player) :
  stored w (IntId user_id) = Some p ->
  is_vip p = true ->
  let r := handle ADMIN_USER_ID (Pressed user_id "main_look") w in
  snd r = inl AttributeError /\ outbox (fst r) = outbox w ++ [answer_callback].
Proof. intros _ _ r. subst r. cbn [handle]. rewrite button_handler_run. split; reflexivity. Qed.

(** C10: what the look button shows downtown while the admin has no
    record.  The press raises before the record of the admin is looked
    up; no text, and so no line about the admin, is sent. *)
Theorem look_without_admin_record (w : World) (user_id : Z) :
  stored w (IntId ADMIN_USER_ID) = None ->
  user_id <> ADMIN_USER_ID ->
  location (default default_player (stored w (IntId user_id))) = "downtown" ->
  let r := handle ADMIN_USER_ID (Pressed user_id "main_look") w in
  snd r = inl AttributeError /\ outbox (fst r) = outbox w ++ [answer_callback].
Proof.
  intros _ _ _ r. subst r. cbn [handle]. rewrite button_handler_run. split; reflexivity.
Qed.

End Buttons.

(** *** Worked instances *)


(** [move_to_atlantis], [talk_nobody] and a teleport to [atlantis] leave
    the record of player 42 as it is. *)
Example unresolved_id_no_mutation_witness :
  let w := world_with "42" created_player in
  dict_get GAME_MAP (Py.replace "move_to_atlantis" "move_to_" "") = None
  /\ dict_get NPCS (Py.replace "talk_nobody" "talk_" "") = None
  /\ dict_get GAME_MAP "atlantis" = None
  /\ same_store (step DEFAULT_ADMIN_USER_ID w (Pressed 42 "move_to_atlantis")) w
  /\ same_store (step DEFAULT_ADMIN_USER_ID w (Pressed 42 "talk_nobody")) w
  /\ same_store (step DEFAULT_ADMIN_USER_ID w
                   (Teleport DEFAULT_ADMIN_USER_ID ["42"; "atlantis"])) w
  /\ stored w (IntId 42) = Some created_player.
Proof.
  intros w.
  assert (H1 : dict_get GAME_MAP (Py.replace "move_to_atlantis" "move_to_" "") = None)
    by reflexivity.
  assert (H2 : dict_get NPCS (Py.replace "talk_nobody" "talk_" "") = None) by reflexivity.
  assert (H3 : dict_get GAME_MAP "atlantis" = None) by reflexivity.
  split; [exact H1|]. split; [exact H2|]. split; [exact H3|].
  split; [|split; [|split]].
  - exact (proj1 (unresolved_id_no_mutation DEFAULT_ADMIN_USER_ID w 42
                    "move_to_atlantis" "" "") eq_refl H1).
  - exact (proj1 (proj2 (unresolved_id_no_mutation DEFAULT_ADMIN_USER_ID w 42
                           "talk_nobody" "" "")) eq_refl H2).
  - exact (proj2 (proj2 (unresolved_id_no_mutation DEFAULT_ADMIN_USER_ID w
                           DEFAULT_ADMIN_USER_ID "" "42" "atlantis")) H3).
  - vm_compute. reflexivity.
Defined.

(** The admin rejects the pending player 42: the record is still there. *)
Example reject_keeps_record_witness :
  stored (world_with "42" pending_player) (IntId 42) = Some pending_player
  /\ pending_approval pending_player = true
  /\ (let r := handle DEFAULT_ADMIN_USER_ID (Pressed DEFAULT_ADMIN_USER_ID "reject_42")
                 (world_with "42" pending_player) in
      snd r = inl AttributeError
      /\ db_file (fst r) = db_file (world_with "42" pending_player)
      /\ stored (fst r) (IntId 42) = Some pending_player).
Proof.
  assert (H : stored (world_with "42" pending_player) (IntId 42) = Some pending_player)
    by (vm_compute; reflexivity).
  split; [exact H|]. split; [reflexivity|].
  exact (reject_keeps_record DEFAULT_ADMIN_USER_ID (world_with "42" pending_player) 42
           pending_player H eq_refl).
Defined.

(** A VIP downtown looks around: the callback is answered, nothing else. *)
Example vip_look_lists_nothing_witness :
  let p := set_is_vip true created_player in
  stored (world_with "42" p) (IntId 42) = Some p
  /\ is_vip p = true
  /\ outbox (fst (handle DEFAULT_ADMIN_USER_ID (Pressed 42 "main_look") (world_with "42" p)))
     = [answer_callback].
Proof.
  intros p.
  assert (H : stored (world_with "42" p) (IntId 42) = Some p) by (vm_compute; reflexivity).
  split; [exact H|]. split; [reflexivity|].
  exact (proj2 (vip_look_lists_nothing DEFAULT_ADMIN_USER_ID (world_with "42" p) 42 p
                  H eq_refl)).
Defined.

(** Player 42 is downtown, the admin has no record. *)
Example look_without_admin_record_witness :
  stored (world_with "42" created_player) (IntId DEFAULT_ADMIN_USER_ID) = None
  /\ 42 <> DEFAULT_ADMIN_USER_ID
  /\ location (default default_player (stored (world_with "42" created_player) (IntId 42)))
     = "downtown"
  /\ outbox (fst (handle DEFAULT_ADMIN_USER_ID (Pressed 42 "main_look")
                    (world_with "42" created_player)))
     = [answer_callback].
Proof.
  assert (H1 : stored (world_with "42" created_player) (IntId DEFAULT_ADMIN_USER_ID) = None)
    by (vm_compute; reflexivity).
  assert (H2 : 42 <> DEFAULT_ADMIN_USER_ID) by discriminate.
  assert (H3 : location (default default_player
                           (stored (world_with "42" created_player) (IntId 42)))
               = "downtown") by (vm_compute; reflexivity).
  split; [exact H1|]. split; [exact H2|]. split; [exact H3|].
  exact (proj2 (look_without_admin_record DEFAULT_ADMIN_USER_ID
                  (world_with "42" created_player) 42 H1 H2 H3)).
Defined.


(** ** A small program logic for the handlers *)

Lemma triple_bind {A B} I (m : M A) (k : A -> M B) (Q : A -> Prop) (R : B -> Prop) :
  triple I m Q -> (forall a, Q a -> triple I (k a) R) -> triple I (bind m k) R.
Proof.
  intros Hm Hk w HI. unfold bind. destruct (Hm w HI) as [H1 H2].
  destruct (m w) as [w' [e|a]]; cbn [fst snd] in *.
  - split; [exact H1 | intros b Hb; discriminate Hb].
  - apply Hk; [apply H2; reflexivity | exact H1].
Qed.

Lemma triple_ret {A} I (a : A) (Q : A -> Prop) : Q a -> triple I (ret a) Q.
Proof. intros Ha w HI. split; [exact HI | intros b [= <-]; exact Ha]. Qed.

Lemma triple_raise {A} I (e : Exn) (Q : A -> Prop) : triple I (raise e) Q.
Proof. intros w HI. split; [exact HI | intros b Hb; discriminate Hb]. Qed.

Lemma triple_lift {A} I (r : Res A) : triple I (lift r) (fun a => r = inr a).
Proof. intros w HI. split; [exact HI | intros b Hb; exact Hb]. Qed.

Lemma triple_send I (o : Out) (Q : unit -> Prop) : Q tt -> triple I (send o) Q.
Proof. intros HQ w HI. split; [exact HI | intros [] _; exact HQ]. Qed.

Lemma triple_set_next_step I (u : Z) (v : option string) (Q : unit -> Prop) :
  Q tt -> triple I (set_next_step u v) Q.
Proof. intros HQ w HI. split; [exact HI | intros [] _; exact HQ]. Qed.

Lemma triple_get_next_step I (u : Z) : triple I (get_next_step u) (fun _ => True).
Proof. intros w HI. split; [exact HI | intros; exact Logic.I]. Qed.

Lemma triple_load I : triple I load_player_data (fun m => I m).
Proof. intros w HI. split; [exact HI | intros m [= <-]; exact HI]. Qed.

Lemma triple_save I (data : gmap string Player) (Q : unit -> Prop) :
  I data -> Q tt -> triple I (save_player_data data) Q.
Proof. intros Hd HQ w HI. split; [exact Hd | intros [] _; exact HQ]. Qed.

Lemma triple_get I (user_id : pyid) :
  triple I (get_player_state user_id)
    (fun p => exists m, I m /\ p = default default_player (m !! py_key user_id)).
Proof.
  intros w HI. rewrite get_player_state_run. split; [exact HI|].
  intros p [= <-]. exists (players_of w). split; [exact HI | reflexivity].
Qed.

Lemma triple_update I (user_id : pyid) (state : Player) (Q : unit -> Prop) :
  (forall m, I m -> I (<[py_key user_id := state]> m)) -> Q tt ->
  triple I (update_player_state user_id state) Q.
Proof.
  intros Hs HQ w HI. rewrite update_player_state_run. cbn [fst snd].
  rewrite players_of_mk. split; [apply Hs, HI | intros [] _; exact HQ].
Qed.

Lemma triple_try {A} I (body : M A) (handler : Exn -> M A) (Q : A -> Prop) :
  triple I body Q -> (forall e, triple I (handler e) Q) ->
  triple I (try_except body handler) Q.
Proof.
  intros Hb Hh w HI. unfold try_except. destruct (Hb w HI) as [H1 H2].
  destruct (body w) as [w' [e|a]]; cbn [fst snd] in *.
  - apply Hh, H1.
  - split; [exact H1 | exact H2].
Qed.

Lemma triple_any {A} I (m : M A) (Q : A -> Prop) :
  triple I m Q -> triple I m (fun _ => True).
Proof. intros H w HI. split; [apply H, HI | intros; exact Logic.I]. Qed.

(** A button press keeps every property of the store: it raises before it
    reads or writes. *)
Lemma triple_button_handler ADMIN_USER_ID I (data : string) (Q : unit -> Prop) :
  triple I (button_handler ADMIN_USER_ID data) Q.
Proof.
  unfold button_handler.
  eapply (triple_bind _ _ _ (fun _ => True)); [apply triple_send; exact Logic.I | intros ? _].
  eapply (triple_bind _ _ _ (fun _ => False)); [apply triple_raise | intros ? []].
Qed.

(** Walk through a handler; what is left are the conditions on the records
    it writes. *)
Ltac triple_go :=
  cbv beta zeta;
  lazymatch goal with
  | |- triple _ (bind (get_player_state _) _) _ =>
      eapply triple_bind; [apply triple_get | intros ? (? & ? & ->); triple_go]
  | |- triple _ (bind load_player_data _) _ =>
      eapply triple_bind; [apply triple_load | intros ? ?; triple_go]
  | |- triple _ (bind (lift _) _) _ =>
      eapply triple_bind; [apply triple_lift | intros ? ?; triple_go]
  | |- triple _ (bind _ _) _ =>
      eapply (triple_bind _ _ _ (fun _ => True)); [triple_go | intros ? _; triple_go]
  | |- triple _ (if ?b then _ else _) _ => destruct b eqn:?; triple_go
  | |- triple _ (match ?x with _ => _ end) _ => destruct x eqn:?; triple_go
  | |- triple _ (ret _) _ => apply triple_ret; try exact Logic.I
  | |- triple _ (raise _) _ => apply triple_raise
  | |- triple _ (lift _) _ => eapply triple_any; apply triple_lift
  | |- triple _ (send _) _ => apply triple_send; exact Logic.I
  | |- triple _ (set_next_step _ _) _ => apply triple_set_next_step; exact Logic.I
  | |- triple _ (get_next_step _) _ => apply triple_get_next_step
  | |- triple _ (get_player_state _) _ => eapply triple_any; apply triple_get
  | |- triple _ (update_player_state _ _) _ => apply triple_update; [|exact Logic.I]
  | |- triple _ (save_player_data _) _ => apply triple_save; [|exact Logic.I]
  | |- triple _ (try_except _ _) _ => apply triple_try; [triple_go | intros ?; triple_go]
  | |- triple _ (usage _ ?e) _ => unfold usage; triple_go
  | |- triple _ (show_main_menu _ _) _ => unfold show_main_menu; triple_go
  | |- triple _ (character_creation_prompt _ _) _ =>
      unfold character_creation_prompt; triple_go
  | |- _ => idtac
  end.

Lemma all_players_insert (P : Player -> Prop) (m : gmap string Player) k s :
  P s -> all_players P m -> all_players P (<[k := s]> m).
Proof.
  intros Hs Hm k' p'. rewrite lookup_insert. case_decide.
  - intros [= <-]. exact Hs.
  - apply Hm.
Qed.

Lemma all_players_delete (P : Player -> Prop) (m : gmap string Player) k :
  all_players P m -> all_players P (delete k m).
Proof.
  intros Hm k' p'. rewrite lookup_delete. case_decide; [discriminate | apply Hm].
Qed.

Lemma all_players_default (P : Player -> Prop) (m : gmap string Player) k :
  P default_player -> all_players P m -> P (default default_player (m !! k)).
Proof.
  intros Hd Hm. destruct (m !! k) as [p|] eqn:E; [exact (Hm _ _ E) | exact Hd].
Qed.

(** *** Properties of single records kept by every handler *)

Section RecordInvariant.

Variable ADMIN_USER_ID : Z.
Variable P : Player -> Prop.

Hypothesis P_default : P default_player.
Hypothesis P_name : forall v p, P p -> approved p = true -> P (set_name v p).
Hypothesis P_stats : forall v p, P p -> P (set_stats v p).
Hypothesis P_inventory : forall v p, P p -> P (set_inventory v p).
Hypothesis P_currency : forall v p, P p -> P (set_currency v p).
Hypothesis P_vip : forall v p, P p -> P (set_is_vip v p).
Hypothesis P_voice :
  forall file_id p, P p -> (approved p || pending_approval p)%bool = false ->
                    P (set_voice_file_id (Some file_id) (set_pending_approval true p)).
Hypothesis P_teleport :
  forall key p, P p -> is_Some (dict_get GAME_MAP key) -> P (set_location key p).

Ltac written :=
  repeat first
    [ assumption
    | match goal with
      | |- forall _, _ => intro
      | H : ?m !! ?k = Some ?p, Hm : all_players P ?m |- P ?p => exact (Hm _ _ H)
      | |- P (if ?b then _ else _) => destruct b
      | |- P default_player => apply P_default
      | |- P (default default_player _) => apply all_players_default
      | |- all_players P (<[_ := _]> _) => apply all_players_insert
      | |- all_players P (delete _ _) => apply all_players_delete
      | |- P (set_stats _ _) => apply P_stats
      | |- P (set_inventory _ _) => apply P_inventory
      | |- P (set_currency _ _) => apply P_currency
      | |- P (set_is_vip _ _) => apply P_vip
      end ].

Lemma record_inv_start_command (user_id : Z) :
  triple (all_players P) (start_command user_id) (fun _ => True).
Proof. unfold start_command. triple_go. Qed.

Lemma record_inv_message_handler (user_id : Z) (text : string) :
  triple (all_players P) (message_handler user_id text) (fun _ => True).
Proof.
  unfold message_handler. triple_go. written. apply P_name; [written|].
  match goal with
  | H : negb (approved ?a) = false |- approved ?a = true =>
      destruct (approved a); [reflexivity | discriminate H]
  end.
Qed.

Lemma record_inv_voice_handler (user_id : Z) (full_name file_id : string) :
  triple (all_players P) (voice_handler ADMIN_USER_ID user_id full_name file_id) (fun _ => True).
Proof.
  unfold voice_handler. triple_go. intros m Hm. apply all_players_insert; [|exact Hm].
  apply P_voice; [written | assumption].
Qed.

Lemma record_inv_admin_commands (user_id : Z) (args : list string) :
  triple (all_players P) (player_info_command ADMIN_USER_ID user_id args) (fun _ => True)
  /\ triple (all_players P) (set_stat_command ADMIN_USER_ID user_id args) (fun _ => True)
  /\ triple (all_players P) (give_item_command ADMIN_USER_ID user_id args) (fun _ => True)
  /\ triple (all_players P) (give_money_command ADMIN_USER_ID user_id args) (fun _ => True)
  /\ triple (all_players P) (set_vip_command ADMIN_USER_ID user_id args) (fun _ => True)
  /\ triple (all_players P) (teleport_command ADMIN_USER_ID user_id args) (fun _ => True).
Proof.
  refine (conj _ (conj _ (conj _ (conj _ (conj _ _))))).
  - unfold player_info_command. triple_go.
  - unfold set_stat_command. triple_go. all: cbv beta in *.
    all: match goal with
         | H : (if _ then _ else _) = Some _ |- _ => clear H
         | _ => idtac
         end.
    all: written.
  - unfold give_item_command. triple_go. all: cbv beta in *. all: written.
  - unfold give_money_command. triple_go. all: cbv beta in *. all: written.
  - unfold set_vip_command. triple_go. all: cbv beta in *. all: written.
  - unfold teleport_command. triple_go. all: cbv beta in *.
    all: apply all_players_insert; [|assumption].
    all: apply P_teleport; [written | eauto].
Qed.

(** One update keeps the property of every stored record. *)
Lemma record_inv_step (ev : Event) (w : World) :
  all_players P (players_of w) ->
  all_players P (players_of (step ADMIN_USER_ID w ev)).
Proof.
  intros Hw. unfold step.
  destruct ev as [u|u t [|]|u fn fid|u data|u args|u args|u args|u args|u args|u args];
    cbn [handle].
  - apply (record_inv_start_command u w Hw).
  - exact Hw.
  - apply (record_inv_message_handler u t w Hw).
  - apply (record_inv_voice_handler u fn fid w Hw).
  - apply (triple_button_handler ADMIN_USER_ID _ data (fun _ => True) w Hw).
  - apply (proj1 (record_inv_admin_commands u args) w Hw).
  - apply (proj1 (proj2 (record_inv_admin_commands u args)) w Hw).
  - apply (proj1 (proj2 (proj2 (record_inv_admin_commands u args))) w Hw).
  - apply (proj1 (proj2 (proj2 (proj2 (record_inv_admin_commands u args)))) w Hw).
  - apply (proj1 (proj2 (proj2 (proj2 (proj2 (record_inv_admin_commands u args))))) w Hw).
  - apply (proj2 (proj2 (proj2 (proj2 (proj2 (record_inv_admin_commands u args))))) w Hw).
Qed.

(** And so does every sequence of updates. *)
Lemma record_inv_run (evs : list Event) (w : World) :
  all_players P (players_of w) ->
  all_players P (players_of (run ADMIN_USER_ID evs w)).
Proof.
  revert w. induction evs as [|ev evs IH]; intros w Hw; [exact Hw|].
  cbn [run fold_left]. apply IH, record_inv_step, Hw.
Qed.

End RecordInvariant.

(** *** Handlers that write only the record of their sender *)

Section SenderFrame.

Variable ADMIN_USER_ID : Z.
Variable I : gmap string Player -> Prop.
Variable user_id : Z.

Hypothesis I_own : forall s m, I m -> I (<[Py.str user_id := s]> m).

Lemma sender_frame_handlers (text full_name file_id data : string) :
  triple I (start_command user_id) (fun _ => True)
  /\ triple I (message_handler user_id text) (fun _ => True)
  /\ triple I (voice_handler ADMIN_USER_ID user_id full_name file_id) (fun _ => True)
  /\ triple I (button_handler ADMIN_USER_ID data) (fun _ => True).
Proof.
  refine (conj _ (conj _ (conj _ _))).
  - unfold start_command. triple_go.
  - unfold message_handler. triple_go. intros m Hm. apply I_own, Hm.
  - unfold voice_handler. triple_go. intros m Hm. apply I_own, Hm.
  - apply triple_button_handler.
Qed.

End SenderFrame.

(** *** Handlers that only read *)

Section ReadOnly.

Variable ADMIN_USER_ID : Z.
Variable I : gmap string Player -> Prop.

Lemma read_only_handlers (user_id : Z) (args : list string) (data : string) :
  triple I (start_command user_id) (fun _ => True)
  /\ triple I (player_info_command ADMIN_USER_ID user_id args) (fun _ => True)
  /\ triple I (button_handler ADMIN_USER_ID data) (fun _ => True).
Proof.
  refine (conj _ (conj _ _)).
  - unfold start_command. triple_go.
  - unfold player_info_command. triple_go.
  - apply triple_button_handler.
Qed.

End ReadOnly.

Section Invariants.

Variable ADMIN_USER_ID : Z.

Lemma flags_coherent_default : flags_coherent default_player.
Proof. split; [reflexivity | discriminate]. Qed.

(** X1.  The approval flags stay coherent in every stored record, whatever
    the sequence of updates: no record is approved and pending at once, and a
    pending record has a voice clip. *)
Theorem flags_coherent_run (evs : list Event) (w : World) :
  all_players flags_coherent (players_of w) ->
  all_players flags_coherent (players_of (run ADMIN_USER_ID evs w)).
Proof.
  apply record_inv_run; try exact flags_coherent_default;
    try (intros v p Hp; exact Hp).
  - intros v p Hp _. exact Hp.
  - intros fid p [Hp1 Hp2] Hflag. apply orb_false_elim in Hflag as [Ha _].
    split; cbn; [rewrite Ha; reflexivity | discriminate].
  - intros key p Hp _. exact Hp.
Qed.

(** X2.  Every stored location stays a district of the world graph along
    any sequence of updates in which no [move_to_] payload names a key
    outside the graph. *)
Theorem location_valid_run (evs : list Event) (w : World) :
  Forall (fun ev => ~ bad_move ev) evs ->
  all_players location_valid (players_of w) ->
  all_players location_valid (players_of (run ADMIN_USER_ID evs w)).
Proof.
  intros _. apply record_inv_run; try (intros v p Hp; exact Hp).
  - unfold location_valid. cbn. eauto.
  - intros v p Hp _. exact Hp.
  - intros fid p Hp _. exact Hp.
  - intros key p _ Hkey. exact Hkey.
Qed.

(** X3.  An update written by a user (anything but the approve and reject
    buttons and the admin commands) changes no record but the sender's. *)
Theorem sender_writes_own_record (ev : Event) (user_id : Z) (q : string) (w : World) :
  sender ev = Some user_id ->
  q <> Py.str user_id ->
  players_of (step ADMIN_USER_ID w ev) !! q = players_of w !! q.
Proof.
  intros Hev Hq.
  assert (Hown : forall (s : Player) (m : gmap string Player),
             m !! q = players_of w !! q ->
             <[Py.str user_id := s]> m !! q = players_of w !! q).
  { intros s m Hm. rewrite lookup_insert_ne by congruence. exact Hm. }
  unfold step.
  destruct ev as [u|u t [|]|u fn fid|u data|u args|u args|u args|u args|u args|u args];
    cbn [sender] in Hev; try discriminate Hev; cbn [handle].
  - injection Hev as ->.
    apply (proj1 (sender_frame_handlers ADMIN_USER_ID _ user_id Hown "" "" "" "") w).
    reflexivity.
  - reflexivity.
  - injection Hev as ->.
    apply (proj1 (proj2 (sender_frame_handlers ADMIN_USER_ID _ user_id Hown t "" "" ""))
             w).
    reflexivity.
  - injection Hev as ->.
    apply (proj1 (proj2 (proj2
             (sender_frame_handlers ADMIN_USER_ID _ user_id Hown "" fn fid ""))) w).
    reflexivity.
  - apply (triple_button_handler ADMIN_USER_ID (fun m => m !! q = players_of w !! q)
             data (fun _ => True) w).
    reflexivity.
Qed.

(** X4.  [/start], [/playerinfo] and the buttons without a writing prefix
    leave the stored collection exactly as it is, also when they raise. *)
Theorem read_only_keeps_store (ev : Event) (w : World) :
  read_only ev ->
  players_of (step ADMIN_USER_ID w ev) = players_of w.
Proof.
  intros Hev. unfold step.
  destruct ev as [u|u t c|u fn fid|u data|u args|u args|u args|u args|u args|u args];
    cbn [read_only] in Hev; try contradiction; cbn [handle].
  - apply (proj1 (read_only_handlers ADMIN_USER_ID (fun m => m = players_of w) u [] "") w).
    reflexivity.
  - apply (triple_button_handler ADMIN_USER_ID (fun m => m = players_of w)
             data (fun _ => True) w).
    reflexivity.
  - apply (proj1 (proj2 (read_only_handlers ADMIN_USER_ID (fun m => m = players_of w)
                           u args "")) w).
    reflexivity.
Qed.

End Invariants.

(** *** Worked instances *)

Lemma all_players_empty (P : Player -> Prop) : all_players P (players_of initial_world).
Proof. intros k p H. discriminate H. Qed.


Lemma all_players_world_with (P : Player -> Prop) (id : string) (p : Player) :
  P p -> all_players P (players_of (world_with id p)).
Proof.
  intros Hp k q. unfold world_with. rewrite players_of_mk.
  rewrite lookup_singleton. case_decide; [intros [= <-]; exact Hp | discriminate].
Qed.

(** A clip, a second clip, and a gift of money to the pending player. *)
Example flags_coherent_run_witness :
  all_players flags_coherent (players_of initial_world)
  /\ all_players flags_coherent
       (players_of (run DEFAULT_ADMIN_USER_ID
                      [Voice 42 "Bob" "clip-1"; Voice 42 "Bob" "clip-2";
                       GiveMoney DEFAULT_ADMIN_USER_ID ["42"; "5"]]
                      initial_world)).
Proof.
  split; [apply all_players_empty|].
  apply (flags_coherent_run DEFAULT_ADMIN_USER_ID). apply all_players_empty.
Defined.

(** The pending player 42 is teleported to nowhere, which is refused, and
    then to the plaza. *)
Example location_valid_run_witness :
  Forall (fun ev => ~ bad_move ev)
    [Teleport DEFAULT_ADMIN_USER_ID ["42"; "nowhere"];
     Teleport DEFAULT_ADMIN_USER_ID ["42"; "the_plaza"]]
  /\ all_players location_valid (players_of (world_with "42" pending_player))
  /\ all_players location_valid
       (players_of (run DEFAULT_ADMIN_USER_ID
                      [Teleport DEFAULT_ADMIN_USER_ID ["42"; "nowhere"];
                       Teleport DEFAULT_ADMIN_USER_ID ["42"; "the_plaza"]]
                      (world_with "42" pending_player))).
Proof.
  assert (H : Forall (fun ev => ~ bad_move ev)
                [Teleport DEFAULT_ADMIN_USER_ID ["42"; "nowhere"];
                 Teleport DEFAULT_ADMIN_USER_ID ["42"; "the_plaza"]]).
  { repeat constructor; intros []. }
  assert (Hw : all_players location_valid (players_of (world_with "42" pending_player))).
  { apply all_players_world_with. vm_compute. eauto. }
  split; [exact H|]. split; [exact Hw|].
  apply (location_valid_run DEFAULT_ADMIN_USER_ID _ _ H Hw).
Defined.

(** Player 7 sends a clip; the record of player 42 is untouched. *)
Example sender_writes_own_record_witness :
  sender (Voice 7 "Ann" "clip-7") = Some 7
  /\ "42" <> Py.str 7
  /\ players_of (step DEFAULT_ADMIN_USER_ID (world_with "42" pending_player)
                   (Voice 7 "Ann" "clip-7")) !! "42"
     = players_of (world_with "42" pending_player) !! "42".
Proof.
  assert (H1 : sender (Voice 7 "Ann" "clip-7") = Some 7) by reflexivity.
  assert (H2 : "42" <> Py.str 7) by discriminate.
  split; [exact H1|]. split; [exact H2|].
  exact (sender_writes_own_record DEFAULT_ADMIN_USER_ID _ 7 "42" _ H1 H2).
Defined.

(** A press that raises, and a query about a player, write nothing. *)
Example read_only_keeps_store_witness :
  read_only (Pressed 42 "talk_nobody")
  /\ snd (handle DEFAULT_ADMIN_USER_ID (Pressed 42 "talk_nobody")
            (world_with "42" created_player)) = inl AttributeError
  /\ players_of (step DEFAULT_ADMIN_USER_ID (world_with "42" created_player)
                   (Pressed 42 "talk_nobody"))
     = players_of (world_with "42" created_player)
  /\ read_only (PlayerInfo DEFAULT_ADMIN_USER_ID ["7"])
  /\ players_of (step DEFAULT_ADMIN_USER_ID (world_with "42" created_player)
                   (PlayerInfo DEFAULT_ADMIN_USER_ID ["7"]))
     = players_of (world_with "42" created_player).
Proof.
  assert (H : read_only (Pressed 42 "talk_nobody")) by (repeat split).
  assert (H' : read_only (PlayerInfo DEFAULT_ADMIN_USER_ID ["7"])) by exact Logic.I.
  split; [exact H|]. split; [reflexivity|].
  split; [exact (read_only_keeps_store DEFAULT_ADMIN_USER_ID _ _ H)|].
  split; [exact H'|].
  exact (read_only_keeps_store DEFAULT_ADMIN_USER_ID _ _ H').
Defined.

(** ** How far a player can get *)

Section Lifecycle.

Variable ADMIN_USER_ID : Z.

Lemma newcomer_default : newcomer default_player.
Proof. repeat split. Qed.

(** X30.  Nobody gets past the request for approval.  If no stored
    record is approved, has a character, a name or a profession, and each
    has the language it was created with, then this is still so after any
    sequence of updates: approval, language and profession are set by
    buttons only, and a name is taken from approved players only. *)
Theorem nobody_gets_past_pending (evs : list Event) (w : World) :
  all_players newcomer (players_of w) ->
  all_players newcomer (players_of (run ADMIN_USER_ID evs w)).
Proof.
  apply record_inv_run; try exact newcomer_default;
    try (intros v p Hp; exact Hp).
  - intros v p (Ha & _) Happroved. congruence.
  - intros fid p Hp _. exact Hp.
  - intros key p Hp _. exact Hp.
Qed.


End Lifecycle.

(** *** Worked instances *)


Example nobody_gets_past_pending_witness :
  let evs := [Voice 42 "Bob" "clip-1"; Pressed DEFAULT_ADMIN_USER_ID "approve_42";
              Start 42; Text 42 "Bob" false; Pressed 42 "set_prof_hustler"] in
  all_players newcomer (players_of initial_world)
  /\ all_players newcomer (players_of (run DEFAULT_ADMIN_USER_ID evs initial_world))
  /\ players_of (run DEFAULT_ADMIN_USER_ID evs initial_world) !! "42" = Some pending_player.
Proof.
  intros evs.
  split; [apply all_players_empty|]. split.
  - apply (nobody_gets_past_pending DEFAULT_ADMIN_USER_ID). apply all_players_empty.
  - vm_compute. reflexivity.
Defined.


(** ** The admin commands *)

Section AdminCommands.

Variable ADMIN_USER_ID : Z.

Lemma is_admin_other (user_id : Z) :
  user_id <> ADMIN_USER_ID -> is_admin ADMIN_USER_ID user_id = false.
Proof. intros H. unfold is_admin. apply Z.eqb_neq. exact H. Qed.

(** X5.  Anyone but the admin is refused: the six admin commands that read
    or write records do nothing at all for such a caller (no reply, no
    write), and [/adminhelp] answers that the caller is not worthy. *)
Theorem non_admin_is_refused (user_id : Z) (args : list string) (w : World) :
  user_id <> ADMIN_USER_ID ->
  player_info_command ADMIN_USER_ID user_id args w = (w, inr tt)
  /\ set_stat_command ADMIN_USER_ID user_id args w = (w, inr tt)
  /\ give_item_command ADMIN_USER_ID user_id args w = (w, inr tt)
  /\ give_money_command ADMIN_USER_ID user_id args w = (w, inr tt)
  /\ set_vip_command ADMIN_USER_ID user_id args w = (w, inr tt)
  /\ teleport_command ADMIN_USER_ID user_id args w = (w, inr tt)
  /\ admin_help_command ADMIN_USER_ID user_id w
     = (sent w (reply_text "You are not worthy." None None), inr tt).
Proof.
  intros Hne. pose proof (is_admin_other _ Hne) as Hadm.
  unfold player_info_command, set_stat_command, give_item_command, give_money_command,
    set_vip_command, teleport_command, admin_help_command.
  rewrite Hadm. cbn [negb]. repeat (split; [reflexivity|]). reflexivity.
Qed.

Lemma unpack2_arity (l : list string) : length l <> 2%nat -> unpack2 l = inl ValueError.
Proof. destruct l as [|a [|b [|c l]]]; cbn; intros H; try reflexivity. congruence. Qed.

Lemma unpack3_arity (l : list string) : length l <> 3%nat -> unpack3 l = inl ValueError.
Proof.
  destruct l as [|a [|b [|c [|d l]]]]; cbn; intros H; try reflexivity. congruence.
Qed.

(** X6.  For a target id that has no record, each of the five writing admin
    commands answers that the player was not found and leaves the file as
    it is: no default record is created for the id. *)
Theorem unknown_player_not_found (w : World) (id : string) :
  players_of w !! id = None ->
  (forall stat v n, Py.int v = Some n ->
     set_stat_command ADMIN_USER_ID ADMIN_USER_ID [id; stat; v] w
     = (sent w (not_found id), inr tt))
  /\ (forall words, Py.join " " words <> "" ->
        give_item_command ADMIN_USER_ID ADMIN_USER_ID (id :: words) w
        = (sent w (not_found id), inr tt))
  /\ (forall a n, Py.int a = Some n ->
        give_money_command ADMIN_USER_ID ADMIN_USER_ID [id; a] w
        = (sent w (not_found id), inr tt))
  /\ (forall status,
        (String.eqb (Py.lower status) "on" || String.eqb (Py.lower status) "off")%bool = true ->
        set_vip_command ADMIN_USER_ID ADMIN_USER_ID [id; status] w
        = (sent w (not_found id), inr tt))
  /\ (forall key, is_Some (dict_get GAME_MAP key) ->
        teleport_command ADMIN_USER_ID ADMIN_USER_ID [id; key] w
        = (sent w (not_found id), inr tt)).
Proof.
  intros Hid.
  unfold set_stat_command, give_item_command, give_money_command, set_vip_command,
    teleport_command.
  rewrite is_admin_self. cbn [negb].
  refine (conj _ (conj _ (conj _ (conj _ _)))).
  - intros stat v n Hv. unfold try_except, bind, lift, to_int.
    cbn [unpack3 fst snd]. rewrite Hv. unfold load_player_data. fold (players_of w).
    cbn [py_key]. rewrite Hid. reflexivity.
  - intros words Hitem. unfold try_except, bind, lift. cbn [tail].
    apply String.eqb_neq in Hitem. rewrite Hitem.
    unfold load_player_data. fold (players_of w). cbn [py_key]. rewrite Hid. reflexivity.
  - intros a n Ha. unfold try_except, bind, lift, to_int.
    cbn [unpack2 fst snd]. rewrite Ha. unfold load_player_data. fold (players_of w).
    cbn [py_key]. rewrite Hid. reflexivity.
  - intros status Hst. unfold try_except, bind, lift.
    cbn [unpack2 fst snd]. rewrite Hst. cbn [negb]. unfold load_player_data.
    fold (players_of w). cbn [py_key]. rewrite Hid. reflexivity.
  - intros key [d Hd]. unfold try_except, bind, lift.
    cbn [unpack2 fst snd]. rewrite Hd. unfold load_player_data.
    fold (players_of w). cbn [py_key]. rewrite Hid. reflexivity.
Qed.

(** X7.  Malformed arguments give the usage line of the command and change
    nothing: a wrong number of arguments, no item name, an amount or a stat
    value that is not an integer, a VIP switch that is neither on nor off. *)
Theorem malformed_arguments_usage (w : World) (args : list string) :
  player_info_command ADMIN_USER_ID ADMIN_USER_ID [] w
  = (sent w (reply_text "Usage: /playerinfo <user_id>" None None), inr tt)
  /\ (length args <> 3%nat \/ (exists id stat v, args = [id; stat; v] /\ Py.int v = None) ->
      set_stat_command ADMIN_USER_ID ADMIN_USER_ID args w
      = (sent w (reply_text "Usage: /setstat <user_id> <stat_name> <value>" None None),
         inr tt))
  /\ (args = [] \/ (exists id words, args = id :: words /\ Py.join " " words = "") ->
      give_item_command ADMIN_USER_ID ADMIN_USER_ID args w
      = (sent w (reply_text "Usage: /giveitem <user_id> <item_name>" None None), inr tt))
  /\ (length args <> 2%nat \/ (exists id a, args = [id; a] /\ Py.int a = None) ->
      give_money_command ADMIN_USER_ID ADMIN_USER_ID args w
      = (sent w (reply_text "Usage: /givemoney <user_id> <amount>" None None), inr tt))
  /\ (length args <> 2%nat
      \/ (exists id status,
            args = [id; status]
            /\ (String.eqb (Py.lower status) "on"
                || String.eqb (Py.lower status) "off")%bool = false) ->
      set_vip_command ADMIN_USER_ID ADMIN_USER_ID args w
      = (sent w (reply_text "Usage: /setvip <user_id> <on|off>" None None), inr tt))
  /\ (length args <> 2%nat ->
      teleport_command ADMIN_USER_ID ADMIN_USER_ID args w
      = (sent w (reply_text "Usage: /teleport <user_id> <location_key>" None None),
         inr tt)).
Proof.
  unfold player_info_command, set_stat_command, give_item_command, give_money_command,
    set_vip_command, teleport_command.
  rewrite is_admin_self. cbn [negb].
  refine (conj _ (conj _ (conj _ (conj _ (conj _ _))))).
  - reflexivity.
  - intros [Hlen|(id & stat & v & -> & Hv)]; unfold try_except, bind, lift, to_int.
    + rewrite (unpack3_arity _ Hlen). reflexivity.
    + cbn [unpack3 fst snd]. rewrite Hv. reflexivity.
  - intros [->|(id & words & -> & Hitem)]; unfold try_except, bind, lift.
    + reflexivity.
    + cbn [tail]. rewrite Hitem. reflexivity.
  - intros [Hlen|(id & a & -> & Ha)]; unfold try_except, bind, lift, to_int.
    + rewrite (unpack2_arity _ Hlen). reflexivity.
    + cbn [unpack2 fst snd]. rewrite Ha. reflexivity.
  - intros [Hlen|(id & status & -> & Hst)]; unfold try_except, bind, lift.
    + rewrite (unpack2_arity _ Hlen). reflexivity.
    + cbn [unpack2 fst snd]. rewrite Hst. reflexivity.
  - intros Hlen. unfold try_except, bind, lift.
    rewrite (unpack2_arity _ Hlen). reflexivity.
Qed.

(** X8.  The teleport command checks the key against the world graph before
    it touches the file: a key outside the graph is refused with the list
    of valid keys, whoever the target is; a valid key becomes the location
    of an existing target, whose other fields stay as they were. *)
Theorem teleport_checks_key (w : World) (id key : string) :
  (dict_get GAME_MAP key = None ->
   teleport_command ADMIN_USER_ID ADMIN_USER_ID [id; key] w
   = (sent w (reply_text
                "Invalid location key. Valid keys: downtown, neon_district, industrial_zone, the_plaza"
                None None), inr tt))
  /\ (forall p, is_Some (dict_get GAME_MAP key) -> players_of w !! id = Some p ->
        teleport_command ADMIN_USER_ID ADMIN_USER_ID [id; key] w
        = (saved w (<[id := set_location key p]> (players_of w))
             (reply_text ("Teleported player " +:+ id +:+ " to " +:+ key +:+ ".")
                None None),
           inr tt)).
Proof.
  unfold teleport_command. rewrite is_admin_self. cbn [negb]. split.
  - intros Hkey. unfold try_except, bind, lift. cbn [unpack2 fst snd].
    rewrite Hkey. reflexivity.
  - intros p [d Hd] Hid. unfold try_except, bind, lift. cbn [unpack2 fst snd].
    rewrite Hd. unfold load_player_data. fold (players_of w). cbn [py_key].
    rewrite Hid. reflexivity.
Qed.

(** X9.  The stat command reads the stat name without regard to case and
    overwrites exactly that stat of an existing target with the given
    integer, of any sign; any other name is answered with the list of stats
    and changes nothing. *)
Theorem set_stat_by_name (w : World) (id stat v : string) (n : Z) (p : Player) :
  players_of w !! id = Some p ->
  Py.int v = Some n ->
  let r := set_stat_command ADMIN_USER_ID ADMIN_USER_ID [id; stat; v] w in
  (Py.lower stat = "charm" ->
   players_of (fst r) = <[id := set_stats (set_charm n (stats p)) p]> (players_of w))
  /\ (Py.lower stat = "intellect" ->
      players_of (fst r) = <[id := set_stats (set_intellect n (stats p)) p]> (players_of w))
  /\ (Py.lower stat = "street_smarts" ->
      players_of (fst r)
      = <[id := set_stats (set_street_smarts n (stats p)) p]> (players_of w))
  /\ (Py.lower stat <> "charm" -> Py.lower stat <> "intellect" ->
      Py.lower stat <> "street_smarts" ->
      r = (sent w (reply_text "Invalid stat. Use: charm, intellect, street_smarts."
                     None None), inr tt)).
Proof.
  intros Hid Hv r. unfold r, set_stat_command. rewrite is_admin_self. cbn [negb].
  unfold try_except, bind, lift, to_int. cbn [unpack3 fst snd]. rewrite Hv.
  unfold load_player_data. fold (players_of w). cbn [py_key]. rewrite Hid.
  refine (conj _ (conj _ (conj _ _))).
  - intros ->. reflexivity.
  - intros ->. reflexivity.
  - intros ->. reflexivity.
  - intros H1 H2 H3. apply String.eqb_neq in H1, H2, H3. rewrite H1, H2, H3. reflexivity.
Qed.

(** X10.  The item command joins all words after the id with blanks and
    puts that one item at the end of the target's inventory; the earlier
    items keep their order, so two gifts end up in the order given. *)
Theorem give_item_appends (w : World) (id : string) (words words' : list string) (p : Player) :
  players_of w !! id = Some p ->
  Py.join " " words <> "" ->
  Py.join " " words' <> "" ->
  let w1 := fst (give_item_command ADMIN_USER_ID ADMIN_USER_ID (id :: words) w) in
  let w2 := fst (give_item_command ADMIN_USER_ID ADMIN_USER_ID (id :: words') w1) in
  players_of w1 = <[id := set_inventory (inventory p ++ [Py.join " " words]) p]> (players_of w)
  /\ players_of w2 !! id
     = Some (set_inventory (inventory p ++ [Py.join " " words; Py.join " " words']) p).
Proof.
  intros Hid Hw Hw'. apply String.eqb_neq in Hw, Hw'.
  assert (Hone : forall w0 p0 ws,
             players_of w0 !! id = Some p0 -> String.eqb (Py.join " " ws) "" = false ->
             players_of (fst (give_item_command ADMIN_USER_ID ADMIN_USER_ID (id :: ws) w0))
             = <[id := set_inventory (inventory p0 ++ [Py.join " " ws]) p0]> (players_of w0)).
  { intros w0 p0 ws H0 Hws. unfold give_item_command. rewrite is_admin_self. cbn [negb].
    unfold try_except, bind, lift. cbn [tail]. rewrite Hws.
    unfold load_player_data. fold (players_of w0). cbn [py_key]. rewrite H0. reflexivity. }
  cbv zeta. rewrite (Hone w p words Hid Hw). split; [reflexivity|].
  rewrite (Hone _ (set_inventory (inventory p ++ [Py.join " " words]) p) words').
  - rewrite (Hone w p words Hid Hw), lookup_insert_eq. cbn [inventory set_inventory].
    rewrite <- app_assoc. reflexivity.
  - rewrite (Hone w p words Hid Hw). apply lookup_insert_eq.
  - exact Hw'.
Qed.

(** X11.  The VIP command reads its switch without regard to case and sets
    the flag of an existing target to whether the switch is [on]; the other
    fields of the record stay as they were. *)
Theorem set_vip_switch (w : World) (id status : string) (p : Player) :
  players_of w !! id = Some p ->
  (Py.lower status = "on" \/ Py.lower status = "off") ->
  set_vip_command ADMIN_USER_ID ADMIN_USER_ID [id; status] w
  = (saved w (<[id := set_is_vip (String.eqb (Py.lower status) "on") p]> (players_of w))
       (reply_text ("Set VIP status for player " +:+ id +:+ " to " +:+ Py.upper status +:+ ".")
          None None),
     inr tt).
Proof.
  intros Hid Hst. unfold set_vip_command. rewrite is_admin_self. cbn [negb].
  unfold try_except, bind, lift. cbn [unpack2 fst snd].
  assert (Hsw : (String.eqb (Py.lower status) "on"
                 || String.eqb (Py.lower status) "off")%bool = true)
    by (destruct Hst as [-> | ->]; reflexivity).
  rewrite Hsw. cbn [negb]. unfold load_player_data. fold (players_of w). cbn [py_key].
  rewrite Hid. reflexivity.
Qed.

End AdminCommands.

(** *** Worked instances *)

Example non_admin_is_refused_witness :
  42 <> DEFAULT_ADMIN_USER_ID
  /\ give_money_command DEFAULT_ADMIN_USER_ID 42 ["42"; "1000000"]
       (world_with "42" created_player)
     = (world_with "42" created_player, inr tt)
  /\ admin_help_command DEFAULT_ADMIN_USER_ID 42 (world_with "42" created_player)
     = (sent (world_with "42" created_player) (reply_text "You are not worthy." None None),
        inr tt).
Proof.
  assert (H : 42 <> DEFAULT_ADMIN_USER_ID) by discriminate.
  split; [exact H|].
  destruct (non_admin_is_refused DEFAULT_ADMIN_USER_ID 42 ["42"; "1000000"]
              (world_with "42" created_player) H) as (_ & _ & _ & Hm & _ & _ & Hh).
  split; [exact Hm | exact Hh].
Defined.

Example unknown_player_not_found_witness :
  players_of initial_world !! "42" = None
  /\ Py.int "5" = Some 5
  /\ give_money_command DEFAULT_ADMIN_USER_ID DEFAULT_ADMIN_USER_ID ["42"; "5"] initial_world
     = (sent initial_world (not_found "42"), inr tt).
Proof.
  split; [reflexivity|]. split; [reflexivity|].
  exact (proj1 (proj2 (proj2 (unknown_player_not_found DEFAULT_ADMIN_USER_ID
                                initial_world "42" eq_refl))) "5" 5 eq_refl).
Defined.

Example malformed_arguments_usage_witness :
  length ["42"] <> 2%nat
  /\ Py.int "ten" = None
  /\ give_money_command DEFAULT_ADMIN_USER_ID DEFAULT_ADMIN_USER_ID ["42"] initial_world
     = (sent initial_world (reply_text "Usage: /givemoney <user_id> <amount>" None None),
        inr tt)
  /\ give_money_command DEFAULT_ADMIN_USER_ID DEFAULT_ADMIN_USER_ID ["42"; "ten"]
       (world_with "42" created_player)
     = (sent (world_with "42" created_player)
          (reply_text "Usage: /givemoney <user_id> <amount>" None None), inr tt).
Proof.
  assert (H1 : length ["42"] <> 2%nat) by discriminate.
  assert (H2 : Py.int "ten" = None) by reflexivity.
  split; [exact H1|]. split; [exact H2|]. split.
  - exact (proj1 (proj2 (proj2 (proj2 (malformed_arguments_usage DEFAULT_ADMIN_USER_ID
                                         initial_world ["42"])))) (or_introl H1)).
  - exact (proj1 (proj2 (proj2 (proj2 (malformed_arguments_usage DEFAULT_ADMIN_USER_ID
                                         (world_with "42" created_player) ["42"; "ten"]))))
             (or_intror (ex_intro _ "42" (ex_intro _ "ten" (conj eq_refl H2))))).
Defined.

Example teleport_checks_key_witness :
  dict_get GAME_MAP "atlantis" = None
  /\ is_Some (dict_get GAME_MAP "the_plaza")
  /\ players_of (world_with "42" created_player) !! "42" = Some created_player
  /\ db_file (fst (teleport_command DEFAULT_ADMIN_USER_ID DEFAULT_ADMIN_USER_ID
                     ["42"; "atlantis"] (world_with "42" created_player)))
     = db_file (world_with "42" created_player)
  /\ players_of (fst (teleport_command DEFAULT_ADMIN_USER_ID DEFAULT_ADMIN_USER_ID
                        ["42"; "the_plaza"] (world_with "42" created_player))) !! "42"
     = Some (set_location "the_plaza" created_player).
Proof.
  assert (H1 : dict_get GAME_MAP "atlantis" = None) by reflexivity.
  assert (H2 : is_Some (dict_get GAME_MAP "the_plaza")) by (vm_compute; eauto).
  assert (H3 : players_of (world_with "42" created_player) !! "42" = Some created_player)
    by (vm_compute; reflexivity).
  split; [exact H1|]. split; [exact H2|]. split; [exact H3|].
  destruct (teleport_checks_key DEFAULT_ADMIN_USER_ID (world_with "42" created_player)
              "42" "atlantis") as [Hbad _].
  destruct (teleport_checks_key DEFAULT_ADMIN_USER_ID (world_with "42" created_player)
              "42" "the_plaza") as [_ Hgood].
  rewrite (Hbad H1), (Hgood _ H2 H3). split; [reflexivity|].
  unfold saved. cbn [fst]. rewrite players_of_mk. apply lookup_insert_eq.
Defined.

Example set_stat_by_name_witness :
  players_of (world_with "42" created_player) !! "42" = Some created_player
  /\ Py.int "-5" = Some (-5)
  /\ Py.lower "CHARM" = "charm"
  /\ players_of (fst (set_stat_command DEFAULT_ADMIN_USER_ID DEFAULT_ADMIN_USER_ID
                        ["42"; "CHARM"; "-5"] (world_with "42" created_player)))
     = <[ "42" := set_stats (mkStats (-5) 1 1) created_player ]>
         (players_of (world_with "42" created_player)).
Proof.
  assert (H1 : players_of (world_with "42" created_player) !! "42" = Some created_player)
    by (vm_compute; reflexivity).
  assert (H2 : Py.int "-5" = Some (-5)) by reflexivity.
  assert (H3 : Py.lower "CHARM" = "charm") by reflexivity.
  split; [exact H1|]. split; [exact H2|]. split; [exact H3|].
  exact (proj1 (set_stat_by_name DEFAULT_ADMIN_USER_ID _ "42" "CHARM" "-5" (-5)
                  created_player H1 H2) H3).
Defined.

Example give_item_appends_witness :
  players_of (world_with "42" created_player) !! "42" = Some created_player
  /\ Py.join " " ["rusty"; "key"] <> ""
  /\ Py.join " " ["map"] <> ""
  /\ players_of
       (fst (give_item_command DEFAULT_ADMIN_USER_ID DEFAULT_ADMIN_USER_ID ["42"; "map"]
          (fst (give_item_command DEFAULT_ADMIN_USER_ID DEFAULT_ADMIN_USER_ID
                  ["42"; "rusty"; "key"] (world_with "42" created_player))))) !! "42"
     = Some (set_inventory ["rusty key"; "map"] created_player).
Proof.
  assert (H1 : players_of (world_with "42" created_player) !! "42" = Some created_player)
    by (vm_compute; reflexivity).
  assert (H2 : Py.join " " ["rusty"; "key"] <> "") by discriminate.
  assert (H3 : Py.join " " ["map"] <> "") by discriminate.
  split; [exact H1|]. split; [exact H2|]. split; [exact H3|].
  exact (proj2 (give_item_appends DEFAULT_ADMIN_USER_ID _ "42" ["rusty"; "key"] ["map"]
                  created_player H1 H2 H3)).
Defined.

Example set_vip_switch_witness :
  players_of (world_with "42" created_player) !! "42" = Some created_player
  /\ (Py.lower "ON" = "on" \/ Py.lower "ON" = "off")
  /\ set_vip_command DEFAULT_ADMIN_USER_ID DEFAULT_ADMIN_USER_ID ["42"; "ON"]
       (world_with "42" created_player)
     = (saved (world_with "42" created_player)
          (<[ "42" := set_is_vip true created_player ]>
             (players_of (world_with "42" created_player)))
          (reply_text "Set VIP status for player 42 to ON." None None),
        inr tt).
Proof.
  assert (H1 : players_of (world_with "42" created_player) !! "42" = Some created_player)
    by (vm_compute; reflexivity).
  assert (H2 : Py.lower "ON" = "on" \/ Py.lower "ON" = "off") by (left; reflexivity).
  split; [exact H1|]. split; [exact H2|].
  exact (set_vip_switch DEFAULT_ADMIN_USER_ID _ "42" "ON" created_player H1 H2).
Defined.


(** An amount in Persian digits is an integer to [int]: the command pays. *)
Example give_money_persian_digits :
  players_of (fst (give_money_command DEFAULT_ADMIN_USER_ID DEFAULT_ADMIN_USER_ID
                     ["7"; "۵۰"] (world_with "7" default_player))) !! "7"
  = Some (set_currency 150 default_player).
Proof. vm_compute. reflexivity. Qed.


(** ** Localized texts *)

Lemma format_go_plain (kwargs : list (string * string)) (s : string) :
  has_char "{" s = false -> has_char "}" s = false ->
  format_go kwargs Literal s = inr s.
Proof.
  induction s as [|c r IH]; cbn [has_char format_go]; [reflexivity|].
  intros [Hc Hr]%orb_false_elim [Hc' Hr']%orb_false_elim.
  rewrite Hc, Hc', (IH Hr Hr'). reflexivity.
Qed.

(** The language code matters only through whether it is [en] or [fa]. *)
Lemma get_text_cases (key lang : string) (kwargs : list (string * string)) :
  get_text key lang kwargs
  = if String.eqb "en" lang then get_text key "en" kwargs
    else if String.eqb "fa" lang then get_text key "fa" kwargs
    else format key kwargs.
Proof.
  unfold get_text, locales. cbn [dict_get].
  destruct (String.eqb_spec "en" lang) as [<-|_]; [reflexivity|].
  destruct (String.eqb_spec "fa" lang) as [<-|_]; reflexivity.
Qed.

(** X12.  A text that is missing degrades to its key: for a language code
    other than [en] and [fa], and for a key that neither table has, the
    result of [get_text] is the key itself, whatever the arguments, as long
    as the key has no braces. *)
Theorem get_text_falls_back_to_key (key lang : string) (kwargs : list (string * string)) :
  has_char "{" key = false -> has_char "}" key = false ->
  (lang <> "en" /\ lang <> "fa"
   \/ dict_get en_locale key = None /\ dict_get fa_locale key = None) ->
  get_text key lang kwargs = inr key.
Proof.
  intros H1 H2 Hmiss.
  assert (Hfmt : format key kwargs = inr key) by (apply format_go_plain; assumption).
  rewrite get_text_cases.
  destruct Hmiss as [[Hen Hfa]|[Hen Hfa]].
  - destruct (String.eqb_spec "en" lang) as [E|_]; [congruence|].
    destruct (String.eqb_spec "fa" lang) as [E|_]; [congruence|]. exact Hfmt.
  - assert (Ken : get_text key "en" kwargs = inr key).
    { change (get_text key "en" kwargs)
        with (format (default key (dict_get en_locale key)) kwargs).
      rewrite Hen. exact Hfmt. }
    assert (Kfa : get_text key "fa" kwargs = inr key).
    { change (get_text key "fa" kwargs)
        with (format (default key (dict_get fa_locale key)) kwargs).
      rewrite Hfa. exact Hfmt. }
    destruct (String.eqb "en" lang); [exact Ken|].
    destruct (String.eqb "fa" lang); [exact Kfa | exact Hfmt].
Qed.

(** A text is there for every language code once it is there for [en],
    for [fa] and for the bare key. *)
Lemma get_text_ok (key lang : string) (kwargs : list (string * string)) :
  is_inr (get_text key "en" kwargs) = true ->
  is_inr (get_text key "fa" kwargs) = true ->
  is_inr (format key kwargs) = true ->
  exists text, get_text key lang kwargs = inr text.
Proof.
  intros Hen Hfa Hkey. rewrite get_text_cases.
  destruct (String.eqb "en" lang);
    [destruct (get_text key "en" kwargs); [discriminate Hen | eauto]|].
  destruct (String.eqb "fa" lang);
    [destruct (get_text key "fa" kwargs); [discriminate Hfa | eauto]|].
  destruct (format key kwargs); [discriminate Hkey | eauto].
Qed.

(** Replace the text at the head of the computation by a name. *)
Ltac run_text :=
  match goal with
  | |- context [bind (lift (get_text ?k ?l ?kw)) ?f ?w] =>
      let t := fresh "text" in
      let H := fresh "Htext" in
      destruct (get_text_ok k l kw eq_refl eq_refl eq_refl) as [t H];
      rewrite H, run_bind_lift_inr; clear H
  end.

Ltac run_all := repeat first [run_text | run_step].

Example get_text_falls_back_to_key_witness :
  has_char "{" "menu_look" = false
  /\ has_char "}" "menu_look" = false
  /\ ("de" <> "en" /\ "de" <> "fa"
      \/ dict_get en_locale "menu_look" = None /\ dict_get fa_locale "menu_look" = None)
  /\ get_text "menu_look" "de" [] = inr "menu_look".
Proof.
  assert (H3 : "de" <> "en" /\ "de" <> "fa"
               \/ dict_get en_locale "menu_look" = None
                  /\ dict_get fa_locale "menu_look" = None)
    by (left; split; discriminate).
  split; [reflexivity|]. split; [reflexivity|]. split; [exact H3|].
  exact (get_text_falls_back_to_key "menu_look" "de" [] eq_refl eq_refl H3).
Defined.


(** ** The player's side of the lifecycle *)

Lemma run_bind_get_next_step {B} (u : Z) (k : option string -> M B) (w : World) :
  bind (get_next_step u) k w = k (default None (user_data w !! u)) w.
Proof. reflexivity. Qed.

Lemma players_of_keep (w : World) ud ob : players_of (mkWorld (db_file w) ud ob) = players_of w.
Proof. reflexivity. Qed.

(** Bring the world reached at the end of a run into record form. *)
Ltac run_end :=
  unfold set_next_step, send;
  cbn [db_file user_data outbox];
  rewrite ?players_of_keep.

Section PlayerFlow.

Variable ADMIN_USER_ID : Z.

Lemma message_handler_drops (w : World) (user_id : Z) (text : string) :
  approved (default default_player (stored w (IntId user_id))) = false
  \/ default None (user_data w !! user_id) <> Some "create_character_name" ->
  message_handler user_id text w = (w, inr tt).
Proof.
  intros H. unfold message_handler.
  rewrite run_bind_get_player_state, run_bind_get_next_step.
  fold (stored w (IntId user_id)).
  destruct (approved (default default_player (stored w (IntId user_id)))) eqn:Ha;
    cbn [negb]; [|reflexivity].
  destruct H as [H|H]; [discriminate H|].
  rewrite bool_decide_eq_false_2 by exact H. reflexivity.
Qed.

Lemma message_handler_names (w : World) (user_id : Z) (text : string) :
  let p := default default_player (stored w (IntId user_id)) in
  approved p = true ->
  default None (user_data w !! user_id) = Some "create_character_name" ->
  exists prompt labels,
    message_handler user_id text w
    = (mkWorld (Some (<[Py.str user_id := set_name (Some text) p]> (players_of w)))
         (<[user_id := None]> (user_data w))
         (outbox w ++ [reply_text prompt None (Some labels)]),
       inr tt)
    /\ map (map snd) labels
       = [["set_prof_hustler"]; ["set_prof_intellectual"]; ["set_prof_charmer"]].
Proof.
  intros p Ha Hc. unfold message_handler.
  rewrite run_bind_get_player_state, run_bind_get_next_step.
  fold (stored w (IntId user_id)). fold p. rewrite Ha, Hc. cbn [negb].
  rewrite bool_decide_eq_true_2 by reflexivity.
  run_all. run_end. eexists _, _. split; reflexivity.
Qed.


(** X13.  A text message is dropped without any effect (no reply, no write,
    cursor untouched) when its sender is not approved, and also when the
    sender is approved but is not being asked for a character name. *)
Theorem text_is_ignored (w : World) (user_id : Z) (text : string) :
  approved (default default_player (stored w (IntId user_id))) = false
  \/ default None (user_data w !! user_id) <> Some "create_character_name" ->
  message_handler user_id text w = (w, inr tt).
Proof.
  intros H. unfold message_handler.
  rewrite run_bind_get_player_state, run_bind_get_next_step.
  fold (stored w (IntId user_id)).
  destruct (approved (default default_player (stored w (IntId user_id)))) eqn:Ha;
    cbn [negb]; [|reflexivity].
  destruct H as [H|H]; [discriminate H|].
  rewrite bool_decide_eq_false_2 by exact H. reflexivity.
Qed.

(** X14.  When an approved player is being asked for a name, the text
    becomes the name, nothing else in the record changes, the professions
    are offered and the cursor is cleared; so a further text is dropped and
    cannot overwrite the name. *)
Theorem name_entry (w : World) (user_id : Z) (text text' : string) :
  let p := default default_player (stored w (IntId user_id)) in
  approved p = true ->
  default None (user_data w !! user_id) = Some "create_character_name" ->
  exists w1 prompt labels,
    message_handler user_id text w = (w1, inr tt)
    /\ players_of w1 = <[Py.str user_id := set_name (Some text) p]> (players_of w)
    /\ user_data w1 = <[user_id := None]> (user_data w)
    /\ outbox w1 = outbox w ++ [reply_text prompt None (Some labels)]
    /\ map (map snd) labels
       = [["set_prof_hustler"]; ["set_prof_intellectual"]; ["set_prof_charmer"]]
    /\ message_handler user_id text' w1 = (w1, inr tt).
Proof.
  intros p Ha Hc.
  destruct (message_handler_names w user_id text Ha Hc) as (prompt & labels & Hrun & Hl).
  eexists _, prompt, labels. split; [exact Hrun|].
  split; [reflexivity|]. split; [reflexivity|]. split; [reflexivity|].
  split; [exact Hl|].
  apply message_handler_drops. right. cbn [user_data]. rewrite lookup_insert_eq.
  discriminate.
Qed.


End PlayerFlow.

(** *** Worked instances *)

Example text_is_ignored_witness :
  (approved (default default_player (stored (world_with "42" pending_player) (IntId 42)))
   = false
   \/ default None (user_data (world_with "42" pending_player) !! 42)
      <> Some "create_character_name")
  /\ message_handler 42 "Bob" (world_with "42" pending_player)
     = (world_with "42" pending_player, inr tt).
Proof.
  assert (H : approved (default default_player
                          (stored (world_with "42" pending_player) (IntId 42))) = false
              \/ default None (user_data (world_with "42" pending_player) !! 42)
                 <> Some "create_character_name")
    by (left; vm_compute; reflexivity).
  split; [exact H|].
  exact (text_is_ignored (world_with "42" pending_player) 42 "Bob" H).
Defined.

Example name_entry_witness :
  approved (default default_player (stored asking_name_world (IntId 42))) = true
  /\ default None (user_data asking_name_world !! 42) = Some "create_character_name"
  /\ exists w1,
       message_handler 42 "Bob" asking_name_world = (w1, inr tt)
       /\ players_of w1
          = <[ "42" := set_name (Some "Bob") approved_player ]> (players_of asking_name_world)
       /\ message_handler 42 "Eve" w1 = (w1, inr tt).
Proof.
  assert (H1 : approved (default default_player (stored asking_name_world (IntId 42)))
               = true) by (vm_compute; reflexivity).
  assert (H2 : default None (user_data asking_name_world !! 42)
               = Some "create_character_name") by (vm_compute; reflexivity).
  split; [exact H1|]. split; [exact H2|].
  destruct (name_entry asking_name_world 42 "Bob" "Eve" H1 H2)
    as (w1 & prompt & labels & Hrun & Hdb & _ & _ & _ & Hnext).
  exists w1. split; [exact Hrun|]. split; [exact Hdb | exact Hnext].
Defined.


(** ** Ids and keys *)

(** X24.  The handlers reach a record through the integer id, the admin
    commands through the text of an argument.  What was written for the
    integer [z] is read back under the text [str(z)] and under no other
    text: ["007"] denotes the integer 7 but names another record. *)
Theorem record_is_keyed_by_decimal_text (w : World) (z : Z) (s : Player) (t : string) :
  let w1 := fst (update_player_state (IntId z) s w) in
  get_player_state (IntId z) w1 = (w1, inr s)
  /\ get_player_state (StrId (Py.str z)) w1 = (w1, inr s)
  /\ (t <> Py.str z ->
      snd (get_player_state (StrId t) w1) = snd (get_player_state (StrId t) w)).
Proof.
  cbv zeta. rewrite update_player_state_run. cbn [fst].
  rewrite !get_player_state_run, players_of_mk. cbn [py_key snd].
  rewrite lookup_insert_eq. split; [reflexivity|]. split; [reflexivity|].
  intros Ht. rewrite lookup_insert_ne by congruence. reflexivity.
Qed.

Example record_is_keyed_by_decimal_text_witness :
  "007" <> Py.str 7
  /\ Py.int "007" = Some 7
  /\ (let w1 := fst (update_player_state (IntId 7) created_player initial_world) in
      get_player_state (StrId "7") w1 = (w1, inr created_player)
      /\ snd (get_player_state (StrId "007") w1) = inr default_player).
Proof.
  assert (H : "007" <> Py.str 7) by discriminate.
  split; [exact H|]. split; [reflexivity|].
  destruct (record_is_keyed_by_decimal_text initial_world 7 created_player "007")
    as (_ & Hsame & Hother).
  split; [exact Hsame | exact (Hother H)].
Defined.


(** ** Which updates can raise *)

Section Outcome.

Context {A B : Type}.
Variable I : gmap string Player -> Prop.








End Outcome.

Section OutcomeRules.

Variable I : gmap string Player -> Prop.









End OutcomeRules.







Section Raising.

Variable ADMIN_USER_ID : Z.

Local Notation "'anything'" := (fun _ : gmap string Player => True).
Local Notation "'fine'" := (fun _ : unit => True).
Local Notation "'never'" := (fun _ : Exn => False).



End Raising.


(** ** What a button press leaves behind *)

Lemma same_store_refl (w : World) : same_store w w.
Proof. split; reflexivity. Qed.

Lemma oblivious_bind {A B} (m : M A) (k : A -> M B) :
  oblivious m -> (forall a, oblivious (k a)) -> oblivious (bind m k).
Proof.
  intros Hm Hk w w' Hw. unfold bind. destruct (Hm w w' Hw) as [H1 H2].
  destruct (m w) as [v [e|a]], (m w') as [v' [e'|a']]; cbn [fst snd] in *;
    try discriminate H2.
  - injection H2 as <-. split; [exact H1 | reflexivity].
  - injection H2 as <-. apply Hk, H1.
Qed.

Lemma oblivious_pure {A} (r : Res A) : oblivious (lift r).
Proof. intros w w' Hw. split; [exact Hw | reflexivity]. Qed.

Lemma oblivious_send (o : Out) : oblivious (send o).
Proof. intros w w' [H1 H2]. split; [split; assumption | reflexivity]. Qed.

Lemma oblivious_get_next_step (u : Z) : oblivious (get_next_step u).
Proof.
  intros w w' [H1 H2]. split; [split; assumption|].
  unfold get_next_step. cbn [snd]. rewrite H2. reflexivity.
Qed.

Lemma oblivious_set_next_step (u : Z) (v : option string) : oblivious (set_next_step u v).
Proof.
  intros w w' [H1 H2]. split; [|reflexivity].
  split; cbn; [exact H1 | rewrite H2; reflexivity].
Qed.

Lemma oblivious_load : oblivious load_player_data.
Proof.
  intros w w' [H1 H2]. split; [split; assumption|].
  unfold load_player_data. cbn [snd]. rewrite H1. reflexivity.
Qed.

Lemma oblivious_save (data : gmap string Player) : oblivious (save_player_data data).
Proof. intros w w' [H1 H2]. split; [split; [reflexivity | exact H2] | reflexivity]. Qed.

Lemma oblivious_try {A} (body : M A) (handler : Exn -> M A) :
  oblivious body -> (forall e, oblivious (handler e)) -> oblivious (try_except body handler).
Proof.
  intros Hb Hh w w' Hw. unfold try_except. destruct (Hb w w' Hw) as [H1 H2].
  destruct (body w) as [v [e|a]], (body w') as [v' [e'|a']]; cbn [fst snd] in *;
    try discriminate H2.
  - injection H2 as <-. apply Hh, H1.
  - split; [exact H1 | exact H2].
Qed.

(** Walk through a handler: every step reads and writes the store only. *)
Ltac oblivious_go :=
  cbv beta zeta;
  lazymatch goal with
  | |- oblivious (bind _ _) => apply oblivious_bind; [oblivious_go | intros ?; oblivious_go]
  | |- oblivious (match ?x with _ => _ end) => destruct x; oblivious_go
  | |- oblivious (ret _) => apply (oblivious_pure (inr _))
  | |- oblivious (raise _) => apply (oblivious_pure (inl _))
  | |- oblivious (lift _) => apply oblivious_pure
  | |- oblivious (send _) => apply oblivious_send
  | |- oblivious (set_next_step _ _) => apply oblivious_set_next_step
  | |- oblivious (get_next_step _) => apply oblivious_get_next_step
  | |- oblivious load_player_data => apply oblivious_load
  | |- oblivious (save_player_data _) => apply oblivious_save
  | |- oblivious (get_player_state _) => unfold get_player_state; oblivious_go
  | |- oblivious (update_player_state _ _) => unfold update_player_state; oblivious_go
  | |- oblivious (try_except _ _) => apply oblivious_try; [oblivious_go | intros ?; oblivious_go]
  | |- oblivious (usage _ _) => unfold usage; oblivious_go
  | |- oblivious (show_main_menu _ _) => unfold show_main_menu; oblivious_go
  | |- oblivious (character_creation_prompt _ _) =>
      unfold character_creation_prompt; oblivious_go
  end.

Section Presses.

Variable ADMIN_USER_ID : Z.

Lemma handle_oblivious (ev : Event) :
  is_press ev = false -> oblivious (handle ADMIN_USER_ID ev).
Proof.
  destruct ev as [u|u t [|]|u fn fid|u data|u args|u args|u args|u args|u args|u args];
    cbn [handle is_press]; intros H; try discriminate H.
  - unfold start_command. oblivious_go.
  - oblivious_go.
  - unfold message_handler. oblivious_go.
  - unfold voice_handler. oblivious_go.
  - unfold player_info_command. oblivious_go.
  - unfold set_stat_command. oblivious_go.
  - unfold give_item_command. oblivious_go.
  - unfold give_money_command. oblivious_go.
  - unfold set_vip_command. oblivious_go.
  - unfold teleport_command. oblivious_go.
Qed.

Lemma run_same_store (evs : list Event) (w w' : World) :
  same_store w w' ->
  same_store (run ADMIN_USER_ID evs w) (run ADMIN_USER_ID (without_presses evs) w').
Proof.
  revert w w'. induction evs as [|ev evs IH]; intros w w' Hw; [exact Hw|].
  unfold without_presses. cbn [List.filter]. fold (without_presses evs).
  change (run ADMIN_USER_ID (ev :: evs) w)
    with (run ADMIN_USER_ID evs (step ADMIN_USER_ID w ev)).
  destruct (is_press ev) eqn:E; cbn [negb].
  - apply IH. destruct ev; try discriminate E. unfold step. cbn [handle].
    rewrite button_handler_run. cbn [fst]. exact Hw.
  - change (run ADMIN_USER_ID (ev :: without_presses evs) w')
      with (run ADMIN_USER_ID (without_presses evs) (step ADMIN_USER_ID w' ev)).
    apply IH. apply handle_oblivious; assumption.
Qed.

(** X28.  Button presses change nothing: after any sequence of updates the
    file and the conversation data are what the same sequence with every
    press left out gives; all that a press adds is the answer to its
    callback query. *)
Theorem presses_change_nothing (evs : list Event) (w : World) :
  same_store (run ADMIN_USER_ID evs w) (run ADMIN_USER_ID (without_presses evs) w)
  /\ forall user_id data,
       fst (handle ADMIN_USER_ID (Pressed user_id data) w) = sent w answer_callback.
Proof.
  split; [apply run_same_store, same_store_refl|].
  intros user_id data. cbn [handle]. rewrite button_handler_run. reflexivity.
Qed.

End Presses.


